(** * Data workbench: the upload, visualization and chat handlers of main.py

    A shallow embedding of the request handlers of [src/main.py] and of the
    session cache they share.  The handlers are written as state-passing
    functions over a store holding the uploaded tables; Python exceptions are
    values of an error monad.  The loop of the visualization handler runs
    over a list that the code it evaluates can change, so it need not end:
    the handler is followed for a given number of turns of that loop.  Everything the handlers call but do not define
    (the CSV reader, the completion service, the JSON decoder, the Python
    interpreter behind [exec] and [eval], the charting and profiling
    libraries) is an interface: the theorems hold for every implementation
    of it, and a small concrete implementation is given at the end to run the
    handlers on examples. *)

From Stdlib Require Import Ascii String.
From stdpp Require Import base option list strings gmap pretty.

Set Warnings "-register-all".

(** ** Python strings

    A Python [str] is modelled as a Rocq string, one Rocq character standing
    for one character of the Python string (code points below 256). *)

(** The characters [str.strip()] removes: the white space below 256, that is
    tab, line feed, vertical tab, form feed, carriage return, the four
    separators 28-31, space, next-line (133) and no-break space (160). *)
Definition is_space (c : ascii) : bool :=
  let n := nat_of_ascii c in
  (((9 <=? n) && (n <=? 13)) || ((28 <=? n) && (n <=? 32)) || (n =? 133) || (n =? 160))%nat.

Fixpoint lstrip (s : string) : string :=
  match s with
  | EmptyString => EmptyString
  | String c s' => if is_space c then lstrip s' else s
  end.

(** [rstrip] keeps a character when it is not white space or when something
    is kept after it. *)
Fixpoint rstrip (s : string) : string :=
  match s with
  | EmptyString => EmptyString
  | String c s' =>
      match rstrip s' with
      | EmptyString => if is_space c then EmptyString else String c EmptyString
      | kept => String c kept
      end
  end.

(** [s.strip()] *)
Definition strip (s : string) : string := rstrip (lstrip s).

(** [is_prefix p s]: [s.startswith(p)] *)
Fixpoint is_prefix (p s : string) : bool :=
  match p, s with
  | EmptyString, _ => true
  | String a p', String b s' => if decide (a = b) then is_prefix p' s' else false
  | String _ _, EmptyString => false
  end.

(** [replace_from old new skip s]: the scan of [str.replace] for a non-empty
    [old], left to right over [s]; [skip] counts the characters of a match
    already replaced that are still to be stepped over. *)
Fixpoint replace_from (old new : string) (skip : nat) (s : string) : string :=
  match s with
  | EmptyString => EmptyString
  | String c s' =>
      match skip with
      | S k => replace_from old new k s'
      | O =>
          if is_prefix old s
          then new +:+ replace_from old new (String.length old - 1) s'
          else String c (replace_from old new 0 s')
      end
  end.

(** [between new s]: [new] before every character of [s]. *)
Fixpoint between (new s : string) : string :=
  match s with
  | EmptyString => EmptyString
  | String c s' => new +:+ String c (between new s')
  end.

(** [s.replace(old, new)]: every occurrence of [old], found left to right
    without overlap, becomes [new]; for an empty [old], [new] is put before
    every character and at the end. *)
Definition replace (old new s : string) : string :=
  match old with
  | EmptyString => between new s +:+ new
  | String _ _ => replace_from old new 0 s
  end.

(** [contains sub s]: [sub in s] *)
Fixpoint contains (sub s : string) : bool :=
  is_prefix sub s ||
  match s with
  | EmptyString => false
  | String _ s' => contains sub s'
  end.

(** ** Exceptions and results *)

(** A raised exception: whether its class derives from [Exception] (the
    classes that do not, such as [SystemExit] and [KeyboardInterrupt], derive
    from [BaseException] only and pass through [except Exception]), the name
    of its class, and the text [str(e)] gives when it returns.  For the
    exceptions of Python itself and of the libraries it always returns; for an
    exception raised by generated code, [str(e)] runs the [__str__] of a class
    that code may have defined, and whether it returns is asked of the
    interpreter ([str_raises] below). *)
Record pyexn := PyExn {
  exn_is_Exception : bool;
  exn_class : string;
  exn_str : string
}.

Definition raised (class text : string) : pyexn :=
  {| exn_is_Exception := true; exn_class := class; exn_str := text |}.

Inductive result (A : Type) : Type :=
| Ok (a : A)
| Raise (e : pyexn).
Arguments Ok {A} a.
Arguments Raise {A} e.

#[global] Instance result_ret : MRet result := λ A a, Ok a.
#[global] Instance result_bind : MBind result := λ A B f r,
  match r with
  | Ok a => f a
  | Raise e => Raise e
  end.

(** [try: body / except Exception as e: handler e] on results. *)
Definition try_except {A} (body : result A) (handler : pyexn → result A) : result A :=
  match body with
  | Ok a => Ok a
  | Raise e => if exn_is_Exception e then handler e else Raise e
  end.

(** ** Tables

    A table (a pandas DataFrame) has named, typed columns and rows of cells;
    a cell is absent ([None]: NaN, None, NaT) or holds a value.  The values
    are a type [scalar] with decidable equality: two present cells are
    duplicates of each other when they are equal. *)

Inductive dtype := Int64 | Float64 | Bool | Object | Category | Datetime64.

(** [select_dtypes(include=['number'])] *)
Definition is_number (d : dtype) : bool :=
  match d with Int64 | Float64 => true | _ => false end.

(** [select_dtypes(include=['object', 'category'])] *)
Definition is_object_or_category (d : dtype) : bool :=
  match d with Object | Category => true | _ => false end.

Record DataFrame (scalar : Type) := {
  columns : list (string * dtype);
  rows : list (list (option scalar))
}.
Arguments columns {scalar} _.
Arguments rows {scalar} _.

(** [df.columns.tolist()] *)
Definition column_names {scalar} (df : DataFrame scalar) : list string :=
  (columns df).*1.

(** [df.select_dtypes(include=...).columns.tolist()] *)
Definition select_dtypes {scalar} (include : dtype → bool) (df : DataFrame scalar)
  : list string :=
  (filter (λ c, include c.2 = true) (columns df)).*1.

Section cleaning.
Context {scalar : Type} {eq_scalar : EqDecision scalar}.

Abbreviation row := (list (option scalar)).

(** A row is complete when none of its cells is missing. *)
Definition complete (r : row) : bool := forallb (λ c, bool_decide (is_Some c)) r.

(** [df.dropna()]: axis 0, how 'any': the rows with a missing cell go. *)
Definition dropna (df : DataFrame scalar) : DataFrame scalar :=
  {| columns := columns df;
     rows := filter (λ r, complete r = true) (rows df) |}.

(** The rows of [rs] that are not in [seen] and not a repeat of an earlier
    row of [rs], in order. *)
Fixpoint first_occurrences (seen rs : list row) : list row :=
  match rs with
  | [] => []
  | r :: rest =>
      if decide (r ∈ seen) then first_occurrences seen rest
      else r :: first_occurrences (r :: seen) rest
  end.

(** [df.drop_duplicates()]: keep 'first': of equal rows the first stays. *)
Definition drop_duplicates (df : DataFrame scalar) : DataFrame scalar :=
  {| columns := columns df;
     rows := first_occurrences [] (rows df) |}.

End cleaning.

(** ** Values decoded by [json.loads] *)

Inductive json :=
| JNull
| JBool (b : bool)
| JInt (z : Z)
| JFloat (literal : string)
| JString (s : string)
| JList (items : list json)
| JDict (items : list (string * json)).

(** [type(j).__name__] *)
Definition type_name (j : json) : string :=
  match j with
  | JNull => "NoneType"
  | JBool _ => "bool"
  | JInt _ => "int"
  | JFloat _ => "float"
  | JString _ => "str"
  | JList _ => "list"
  | JDict _ => "dict"
  end.

Fixpoint assoc {V} (key : string) (d : list (string * V)) : option V :=
  match d with
  | [] => None
  | (k, v) :: rest => if decide (k = key) then Some v else assoc key rest
  end.

(** [j[key]] for a string [key].  The handlers use the keys [code] and
    [title], plain words; [str] of the [KeyError] for a plain word is the
    word between single quotes. *)
Definition getitem (j : json) (key : string) : result json :=
  match j with
  | JDict d =>
      match assoc key d with
      | Some v => Ok v
      | None => Raise (raised "KeyError" ("'" +:+ key +:+ "'"))
      end
  | JList _ => Raise (raised "TypeError" "list indices must be integers or slices, not str")
  | JString _ => Raise (raised "TypeError" "string indices must be integers, not 'str'")
  | _ => Raise (raised "TypeError" ("'" +:+ type_name j +:+ "' object is not subscriptable"))
  end.

(** The items a [for] loop over [j] visits: the items of a list, the keys of
    a dict, the characters of a string; other values are not iterable. *)
Definition iterate (j : json) : result (list json) :=
  match j with
  | JList items => Ok items
  | JDict d => Ok (JString <$> d.*1)
  | JString s => Ok ((λ c, JString (String c EmptyString)) <$> list_ascii_of_string s)
  | _ => Raise (raised "TypeError" ("'" +:+ type_name j +:+ "' object is not iterable"))
  end.

(** ** The store: tables and the session cache

    [df_cache] maps a session identifier to a reference to a table; the
    tables live in a heap.  A handler that reads [df_cache[file_id]] gets the
    reference, and the code it executes is given the same reference: a change
    made in place through it is a change of the cached table. *)

Definition loc := positive.

Record store (scalar : Type) := {
  heap : gmap loc (DataFrame scalar);
  df_cache : gmap string loc
}.
Arguments heap {scalar} _.
Arguments df_cache {scalar} _.

Definition empty_frame {scalar} : DataFrame scalar := {| columns := []; rows := [] |}.

(** The table a reference points to.  Every reference the cache holds is
    allocated (see [store_wf]); the default is never read on such a store. *)
Definition table_at {scalar} (st : store scalar) (l : loc) : DataFrame scalar :=
  default empty_frame (heap st !! l).

(** The table cached for a session, if there is one. *)
Definition cached_table {scalar} (st : store scalar) (file_id : string)
  : option (DataFrame scalar) :=
  l ← df_cache st !! file_id; heap st !! l.

Definition store_wf {scalar} (st : store scalar) : Prop :=
  ∀ file_id l, df_cache st !! file_id = Some l → is_Some (heap st !! l).

(** ** Objects bound to names *)

(** The completion service's answer; reading [.text] may raise. *)
Record GenerateContentResponse := { text : result string }.

Inductive pyobj :=
| PyNone
| PyStr (s : string)
| PyJson (j : json)
| PyDataFrame (l : loc)                    (* a table, by reference *)
| PyModule (name : string)
| PyCallable (name : string)               (* a function or a class *)
| PyCapturingPrint                         (* the lambda that prints to output_stream *)
| PyEmptyDict                              (* {} *)
| PyBuiltins                               (* the builtins module *)
| PySessionCache                           (* the dict df_cache itself *)
| PyResponse (r : GenerateContentResponse)
| PyFigure (description : string)          (* a Plotly figure *)
| PyObject (description : string).

Abbreviation namespace := (gmap string pyobj).

(** What a run of [exec] leaves: how it ended, what was written through the
    capturing print ([output_stream.getvalue()]), and the store. *)
Record exec_outcome (scalar : Type) := {
  exec_result : result unit;
  exec_printed : string;
  exec_store : store scalar
}.
Arguments exec_result {scalar} _.
Arguments exec_printed {scalar} _.
Arguments exec_store {scalar} _.

(** What a run of [eval] in the loop of [generate_ai_visuals] leaves: the
    value or the exception, the store, and the state of the two objects of
    the handler that the expression can change in place, the item bound to
    [chart_info] and the value bound to [charts_to_generate], over which the
    loop is iterating. *)
Record eval_outcome (scalar : Type) := {
  eval_result : result pyobj;
  eval_store : store scalar;
  eval_chart_info : json;
  eval_charts : json
}.
Arguments eval_result {scalar} _.
Arguments eval_store {scalar} _.
Arguments eval_chart_info {scalar} _.
Arguments eval_charts {scalar} _.

(** ** HTTP responses *)

Inductive response :=
| RedirectResponse (url : string) (status_code : nat)
| HTMLResponse (content : string)
| JSONResponse (body : list (string * string)).

(** [RedirectResponse(url=...)] without a status code answers 307; an HTML
    response and a returned dict answer 200. *)
Definition temporary_redirect : nat := 307.

Definition status (r : response) : nat :=
  match r with
  | RedirectResponse _ code => code
  | HTMLResponse _ => 200
  | JSONResponse _ => 200
  end.

(** The request body of [POST /ask/{file_id}]. *)
Record ChatQuestion := { question : string }.

(** ** What the handlers call and do not define

    The interpreter behind [exec] and [eval] is one of them.  Its runs
    report what the handlers read afterwards: how the run ended, what it
    printed, the store, and, for [eval], the list the loop iterates over and
    the item of the turn.  A run that replaces a function of the module the
    handler calls later ([HTMLResponse], say) is outside the model. *)

Class Collaborators (scalar : Type) := {
  (** [str(contents, 'utf-8')] *)
  utf8_decode : list Byte.byte → result string;
  (** [pd.read_csv(io.StringIO(text))] *)
  read_csv : string → result (DataFrame scalar);
  (** [ai_model]: [None] when configuring the service failed at start-up,
      else [generate_content], from the prompt to a response or an error. *)
  ai_model : option (string → result GenerateContentResponse);
  (** [json.loads]: the decoded value, or the message of the
      [JSONDecodeError] (a [ValueError]). *)
  json_decode : string → json + string;
  (** [exec(code, globals, locals)] *)
  py_exec : string → namespace → namespace → store scalar → exec_outcome scalar;
  (** [eval(code)] in the given global and local scopes; the locals bind
      [chart_info] and [charts_to_generate] to the objects whose state after
      the run is part of the outcome *)
  py_eval : string → namespace → namespace → store scalar → eval_outcome scalar;
  (** [str(e)] for an exception [e] that generated code raised, or that
      rendering the value it returned raised: [None] when it returns (the
      text is then [exn_str e]), else the exception that [__str__] raises *)
  str_raises : pyexn → option pyexn;
  (** the dictionary of the [builtins] module *)
  py_builtins : namespace;
  (** [fig.to_html(full_html=False, include_plotlyjs="cdn")] *)
  to_html : pyobj → result string;
  (** [str] of a list of column names *)
  str_names : list string → string;
  (** [str] of a decoded JSON value that is not a string *)
  str_json : json → string;
  (** [from ydata_profiling import ProfileReport], then
      [ProfileReport(df, title="Statistical Profile").to_html()] *)
  import_ProfileReport : result (DataFrame scalar → result string);
  (** the markup of the dashboard (with the session identifier filled in)
      and of the chat page *)
  dashboard_markup : string → string;
  chat_markup : string
}.

(** ** The handlers of main.py *)

Section handlers.
Context {scalar : Type} {eq_scalar : EqDecision scalar} {libs : Collaborators scalar}.

(** *** Names visible to executed code *)

(** The global names of the module main.py once it is loaded: its imports,
    its own variables and functions, and the attributes every module has. *)
Definition module_globals : namespace :=
  list_to_map [
    ("__name__", PyObject "name"); ("__doc__", PyNone); ("__package__", PyObject "package");
    ("__loader__", PyObject "loader"); ("__spec__", PyObject "spec");
    ("__file__", PyObject "file"); ("__cached__", PyObject "cached");
    ("__builtins__", PyBuiltins);
    ("pd", PyModule "pandas"); ("io", PyModule "io"); ("px", PyModule "plotly.express");
    ("uuid", PyModule "uuid"); ("os", PyModule "os"); ("json", PyModule "json");
    ("List", PyCallable "typing.List");
    ("FastAPI", PyCallable "fastapi.FastAPI"); ("File", PyCallable "fastapi.File");
    ("UploadFile", PyCallable "fastapi.UploadFile"); ("Form", PyCallable "fastapi.Form");
    ("Request", PyCallable "fastapi.Request");
    ("HTMLResponse", PyCallable "fastapi.responses.HTMLResponse");
    ("RedirectResponse", PyCallable "fastapi.responses.RedirectResponse");
    ("StreamingResponse", PyCallable "fastapi.responses.StreamingResponse");
    ("genai", PyModule "google.generativeai");
    ("load_dotenv", PyCallable "dotenv.load_dotenv");
    ("BaseModel", PyCallable "pydantic.BaseModel");
    ("ai_model", match ai_model with Some _ => PyObject "GenerativeModel" | None => PyNone end);
    ("app", PyObject "FastAPI");
    ("df_cache", PySessionCache);
    ("ChatQuestion", PyCallable "ChatQuestion");
    ("read_root", PyCallable "read_root");
    ("get_dashboard", PyCallable "get_dashboard");
    ("upload_and_process", PyCallable "upload_and_process");
    ("generate_ai_visuals", PyCallable "generate_ai_visuals");
    ("generate_statistical_report", PyCallable "generate_statistical_report");
    ("chat_page", PyCallable "chat_page");
    ("ask_question", PyCallable "ask_question")
  ].

(** The dictionary in which a name not found in the local and global scopes
    is looked up.  [exec] and [eval] read it from the key [__builtins__] of
    the globals, and put the built-in module's dictionary under that key
    when the globals lack it. *)
Definition builtins_of (globals : namespace) : namespace :=
  match globals !! "__builtins__" with
  | None => py_builtins
  | Some PyBuiltins => py_builtins
  | Some _ => ∅
  end.

(** Name resolution for code run by [exec] or [eval] at its top level:
    the locals, then the globals, then the built-ins. *)
Definition lookup_name (globals locals : namespace) (name : string) : option pyobj :=
  match locals !! name with
  | Some v => Some v
  | None =>
      match globals !! name with
      | Some v => Some v
      | None => builtins_of globals !! name
      end
  end.

(** [{'df': df, 'pd': pd}], the globals [ask_question] gives to [exec]. *)
Definition chat_globals (df : loc) : namespace :=
  list_to_map [("df", PyDataFrame df); ("pd", PyModule "pandas")].

(** [{'__builtins__': {}, 'print': lambda ...}], the locals [ask_question]
    gives to [exec]. *)
Definition chat_locals : namespace :=
  list_to_map [("__builtins__", PyEmptyDict); ("print", PyCapturingPrint)].

(** The local variables of [generate_ai_visuals] that no turn of the loop
    over the charts can change: they are bound to strings, to the response
    and to the table's reference. *)
Record visuals_frame := {
  v_file_id : string;
  v_df : loc;
  v_data_summary : string;
  v_prompt : string;
  v_ai_response : GenerateContentResponse;
  v_cleaned_response : string
}.

(** The local scope of [generate_ai_visuals] when [eval] is called in the
    loop: [charts_to_generate] and [chart_info] are bound to the list and to
    the item as they are at that moment, and [fig] is bound once an earlier
    evaluation has succeeded. *)
Definition visuals_locals (frame : visuals_frame) (charts_to_generate : json)
    (all_charts_html : string) (chart_info : json) (fig : option pyobj) : namespace :=
  let bound : namespace :=
    list_to_map [
      ("file_id", PyStr (v_file_id frame));
      ("df", PyDataFrame (v_df frame));
      ("data_summary", PyStr (v_data_summary frame));
      ("prompt", PyStr (v_prompt frame));
      ("ai_response", PyResponse (v_ai_response frame));
      ("cleaned_response", PyStr (v_cleaned_response frame));
      ("charts_to_generate", PyJson charts_to_generate);
      ("all_charts_html", PyStr all_charts_html);
      ("chart_info", PyJson chart_info)
    ] in
  match fig with
  | Some v => <["fig" := v]> bound
  | None => bound
  end.

(** *** Pages *)

(** [GET /dashboard/{file_id}] *)
Definition get_dashboard (file_id : string) (st : store scalar) : result response :=
  match df_cache st !! file_id with
  | None => Ok (RedirectResponse "/" temporary_redirect)
  | Some _ => Ok (HTMLResponse (dashboard_markup file_id))
  end.

(** [GET /chat/{file_id}] *)
Definition chat_page (file_id : string) (st : store scalar) : result response :=
  match df_cache st !! file_id with
  | None => Ok (RedirectResponse "/" temporary_redirect)
  | Some _ => Ok (HTMLResponse chat_markup)
  end.

(** [GET /statistical_report/{file_id}]: the import is the first statement
    of the function, before the session is looked up. *)
Definition generate_statistical_report (file_id : string) (st : store scalar)
  : result response :=
  ProfileReport ← import_ProfileReport;
  match df_cache st !! file_id with
  | None => Ok (RedirectResponse "/" temporary_redirect)
  | Some l =>
      html ← ProfileReport (table_at st l);
      Ok (HTMLResponse html)
  end.

(** *** Upload *)

(** [df.dropna().drop_duplicates()] *)
Definition clean (df : DataFrame scalar) : DataFrame scalar :=
  drop_duplicates (dropna df).

(** [POST /upload/]: [contents] is what [file.read()] gave and [uuid4] the
    text of the identifier [uuid.uuid4()] drew.  The cleaned table is a new
    object; the cache entry refers to it. *)
Definition upload_and_process (contents : list Byte.byte) (uuid4 : string)
    (st : store scalar) : result response * store scalar :=
  match (decoded ← utf8_decode contents; read_csv decoded) with
  | Raise e => (Raise e, st)
  | Ok df =>
      let df := clean df in
      let file_id := uuid4 in
      let l := fresh (dom (heap st)) in
      (Ok (RedirectResponse ("/dashboard/" +:+ file_id) 303),
       {| heap := <[l := df]> (heap st);
          df_cache := <[file_id := l]> (df_cache st) |})
  end.

(** *** The completion call *)

(** [ai_model.generate_content(prompt)] *)
Definition generate_content (prompt : string) : result GenerateContentResponse :=
  match ai_model with
  | None =>
      Raise (raised "AttributeError" "'NoneType' object has no attribute 'generate_content'")
  | Some model => model prompt
  end.

(** [json.loads(s)] *)
Definition json_loads (s : string) : result json :=
  match json_decode s with
  | inl j => Ok j
  | inr message => Raise (raised "JSONDecodeError" message)
  end.

(** [str(v)] of a decoded value, as an f-string formats it. *)
Definition format_json (v : json) : string :=
  match v with
  | JString s => s
  | _ => str_json v
  end.

(** *** Visualization *)

(** [str(e)] in an [except] clause, for an exception that came out of
    generated code. *)
Definition read_str (e : pyexn) : result string :=
  match str_raises e with
  | None => Ok (exn_str e)
  | Some e' => Raise e'
  end.

Definition chart_block (title html : string) : string :=
  "<h3>" +:+ title +:+ "</h3>" +:+ html.

Definition chart_error_block (title text : string) : string :=
  "<h3>Error generating chart: " +:+ title +:+ "</h3><p>" +:+ text +:+ "</p>".

(** The [try] and [except] of a turn in which [eval] ran, with
    [all_charts_html] as it was when the turn began and [chart_info] as the
    run left it: the new [all_charts_html].  The [except] clause looks the
    title up before it reads the text of the exception; an exception raised
    inside the clause leaves the loop and the handler. *)
Definition chart_turn (chart_info : json) (all_charts_html : string)
    (evaluated : result pyobj) : result string :=
  try_except
    (v ← evaluated;
     title ← getitem chart_info "title";
     html ← to_html v;
     Ok (all_charts_html +:+ chart_block (format_json title) html))
    (λ e,
     title ← getitem chart_info "title";
     text ← read_str e;
     Ok (all_charts_html +:+ chart_error_block (format_json title) text)).

(** The same for a turn in which [eval] did not run: looking up [code]
    failed, or [eval] refused a value that is not a string.  These are
    exceptions of Python itself, whose text is read as it is. *)
Definition chart_turn_unevaluated (chart_info : json) (all_charts_html : string)
    (e : pyexn) : result string :=
  try_except (Raise e)
    (λ e,
     title ← getitem chart_info "title";
     Ok (all_charts_html +:+ chart_error_block (format_json title) (exn_str e))).

(** One turn of the loop: the new [all_charts_html], the binding of [fig],
    the value of [charts_to_generate] and the store.  [eval(code)] is called
    without scopes, so the expression is evaluated in the scopes of the
    caller, the globals of the module and the locals of the handler. *)
Definition render_chart (frame : visuals_frame) (charts_to_generate : json)
    (chart_info : json) (fig : option pyobj) (all_charts_html : string) (st : store scalar)
  : result string * option pyobj * json * store scalar :=
  match getitem chart_info "code" with
  | Ok (JString source) =>
      let out :=
        py_eval source module_globals
          (visuals_locals frame charts_to_generate all_charts_html chart_info fig) st in
      (chart_turn (eval_chart_info out) all_charts_html (eval_result out),
       match eval_result out with Ok v => Some v | Raise _ => fig end,
       eval_charts out, eval_store out)
  | Ok _ =>
      (chart_turn_unevaluated chart_info all_charts_html
         (raised "TypeError" "eval() arg 1 must be a string, bytes or code object"),
       fig, charts_to_generate, st)
  | Raise e =>
      (chart_turn_unevaluated chart_info all_charts_html e, fig, charts_to_generate, st)
  end.

(** The items a loop over [j] has to visit; none when [j] is not iterable. *)
Definition items_of (j : json) : list json :=
  match iterate j with
  | Ok items => items
  | Raise _ => []
  end.

(** [for chart_info in charts_to_generate: ...], from the turn of the item
    at [index] on.  The iterator of a list holds the list itself and an
    index: each turn takes the item the list has at that index when the turn
    begins, and the loop ends when the list has none, so a turn that
    shortens, lengthens or changes the list changes what the later turns
    visit.  The loop need not end; [turns] is the number of turns it is
    followed for, and the result is [None] when it has not ended by then. *)
Fixpoint render_charts (turns : nat) (frame : visuals_frame) (charts_to_generate : json)
    (index : nat) (fig : option pyobj) (all_charts_html : string) (st : store scalar)
  : option (result string * store scalar) :=
  match items_of charts_to_generate !! index with
  | None => Some (Ok all_charts_html, st)
  | Some chart_info =>
      match turns with
      | O => None
      | S turns' =>
          match render_chart frame charts_to_generate chart_info fig all_charts_html st with
          | (Ok html, fig', charts', st') =>
              render_charts turns' frame charts' (S index) fig' html st'
          | (Raise e, _, _, st') => Some (Raise e, st')
          end
      end
  end.

Definition summary_of (df : DataFrame scalar) : string :=
  "Dataset has " +:+ pretty (length (rows df)) +:+ " rows, Numerical columns: "
  +:+ str_names (select_dtypes is_number df) +:+ ", Categorical columns: "
  +:+ str_names (select_dtypes is_object_or_category df).

Definition visuals_prompt (data_summary : string) : string :=
  "You are a visualization expert using Plotly Express. Based on this summary, provide a JSON list of 3 objects. Each object must have 'title' and 'code' (a single line of Plotly Express code). The DataFrame is named 'df'. Dataset Summary: "
  +:+ data_summary.

(** [cleaned_response] *)
Definition strip_json_fences (completion : string) : string :=
  replace "```" EmptyString (replace "```json" EmptyString (strip completion)).

Definition ai_error_page (completion : string) : response :=
  HTMLResponse ("<h1>Error processing AI response.</h1><pre>" +:+ completion +:+ "</pre>").

Definition visuals_page (all_charts_html : string) : response :=
  HTMLResponse ("<html><body><h1>AI Visualizations</h1>" +:+ all_charts_html +:+ "</body></html>").

(** Reading a local variable that was never assigned. *)
Definition unbound_local (name : string) : pyexn :=
  raised "UnboundLocalError"
    ("cannot access local variable '" +:+ name +:+ "' where it is not associated with a value").

(** The end of the handler, from what the loop gave. *)
Definition finish_page (loop : option (result string * store scalar))
  : option (result response * store scalar) :=
  match loop with
  | Some (Ok all_charts_html, st') => Some (Ok (visuals_page all_charts_html), st')
  | Some (Raise e, st') => Some (Raise e, st')
  | None => None
  end.

(** [GET /ai_visuals/{file_id}], with the loop over the charts followed for
    at most [turns] turns: the response or the exception raised, and the
    store, or [None] when the loop has not ended by then. *)
Definition generate_ai_visuals (turns : nat) (file_id : string) (st : store scalar)
  : option (result response * store scalar) :=
  match df_cache st !! file_id with
  | None => Some (Ok (RedirectResponse "/" temporary_redirect), st)
  | Some l =>
      let df := table_at st l in
      let data_summary := summary_of df in
      let prompt := visuals_prompt data_summary in
      match generate_content prompt with
      | Raise e =>
          (* the except clause reads ai_response, which was never bound *)
          Some (if exn_is_Exception e then Raise (unbound_local "ai_response") else Raise e, st)
      | Ok ai_response =>
          let parsed :=
            completion ← text ai_response;
            let cleaned_response := strip_json_fences completion in
            charts_to_generate ← json_loads cleaned_response;
            Ok (cleaned_response, charts_to_generate) in
          match parsed with
          | Raise e =>
              Some (if exn_is_Exception e
                    then completion ← text ai_response; Ok (ai_error_page completion)
                    else Raise e, st)
          | Ok (cleaned_response, charts_to_generate) =>
              let frame :=
                {| v_file_id := file_id; v_df := l; v_data_summary := data_summary;
                   v_prompt := prompt; v_ai_response := ai_response;
                   v_cleaned_response := cleaned_response |} in
              match iterate charts_to_generate with
              | Raise e => Some (Raise e, st)
              | Ok _ =>
                  finish_page
                    (render_charts turns frame charts_to_generate 0 None EmptyString st)
              end
          end
      end
  end.

(** *** Chat *)

Definition chat_prompt (df : DataFrame scalar) (item : ChatQuestion) : string :=
  "You are a Python Pandas expert. Given a DataFrame named 'df' with columns "
  +:+ str_names (column_names df)
  +:+ ", write a single line of Python code to answer: '" +:+ question item
  +:+ "'. Your code must print the result. No explanation.".

(** [code] *)
Definition strip_python_fences (completion : string) : string :=
  replace "```" EmptyString (replace "```python" EmptyString (strip completion)).

(** [output_stream.getvalue() or "Action performed."] *)
Definition answer_of (printed : string) : string :=
  if decide (printed = EmptyString) then "Action performed." else printed.

Definition answer_response (answer : string) : response :=
  JSONResponse [("answer", answer)].

(** The end of [ask_question] once [exec] has run: the answer is what was
    printed, or the fixed text; when the run raised an [Exception], the
    [except] clause reads the text of the exception, which runs code of the
    exception's class and may itself raise. *)
Definition chat_answer (run : exec_outcome scalar) : result response * store scalar :=
  (answer ← try_except
               (_ ← exec_result run; Ok (answer_of (exec_printed run)))
               (λ e, text ← read_str e; Ok ("Error: " +:+ text));
   Ok (answer_response answer),
   exec_store run).

(** [POST /ask/{file_id}].  The one [try] covers the completion call and
    the run of the code; an exception of the completion service is one of a
    library, whose text is read as it is. *)
Definition ask_question (file_id : string) (item : ChatQuestion) (st : store scalar)
  : result response * store scalar :=
  match df_cache st !! file_id with
  | None => (Ok (answer_response "Session not found."), st)
  | Some l =>
      let df := table_at st l in
      let prompt := chat_prompt df item in
      match (ai_response ← generate_content prompt;
             completion ← text ai_response;
             Ok (strip_python_fences completion)) with
      | Raise e =>
          (answer ← try_except (Raise e) (λ e, Ok ("Error: " +:+ exn_str e));
           Ok (answer_response answer),
           st)
      | Ok code => chat_answer (py_exec code (chat_globals l) chat_locals st)
      end
  end.

End handlers.

(** ** Notions the properties are stated with *)

Section notions.
Context {scalar : Type} {libs : Collaborators scalar}.

(** The line a chat request executes: the completion without its fences,
    run by [exec] on the store of the request with the scopes of
    [ask_question]. *)
Definition chat_run (st : store scalar) (l : loc) (completion : string)
  : exec_outcome scalar :=
  py_exec (strip_python_fences completion) (chat_globals l) chat_locals st.


(** The local variables of [generate_ai_visuals] when it enters the loop,
    for a request that found its session, got a completion and decoded it. *)
Definition request_frame (file_id : string) (st : store scalar) (l : loc)
    (ai_response : GenerateContentResponse) (completion : string) : visuals_frame :=
  {| v_file_id := file_id; v_df := l;
     v_data_summary := summary_of (table_at st l);
     v_prompt := visuals_prompt (summary_of (table_at st l));
     v_ai_response := ai_response;
     v_cleaned_response := strip_json_fences completion |}.









End notions.

(** ** Start-up configuration (main.py, lines 21 to 26)

    [genai.configure] and the construction of the model run inside a [try];
    an [Exception] from either is reported on the console and leaves
    [ai_model] at [None].  The result is the lines printed and [ai_model]. *)
Definition configure_ai {Model : Type} (configure : result unit)
    (GenerativeModel : result Model) : result (list string * option Model) :=
  try_except
    (_ ← configure; model ← GenerativeModel; Ok ([], Some model))
    (λ e, Ok (["Error configuring Google AI: " +:+ exn_str e], None)).

(** ** The script list.py

    The script configures the service, prints a header, the name of every
    model that supports [generateContent], and a footer.  [models] are the
    models the listing yields and [failure] the exception it raises after
    them, if any; the result is the lines printed and how the script ends. *)
Module list_py.

Record Model := {
  name : string;
  supported_generation_methods : list string
}.

(** [exit()] *)
Definition SystemExit : pyexn :=
  {| exn_is_Exception := false; exn_class := "SystemExit"; exn_str := "None" |}.

Definition header : string := "--- Finding available models for your API key ---".
Definition footer : string := "--- End of list ---".

(** The names the loop prints. *)
Definition listed (models : list Model) : list string :=
  name <$> filter (λ m, "generateContent" ∈ supported_generation_methods m) models.

Definition run (configure : result unit) (models : list Model) (failure : option pyexn)
  : list string * result unit :=
  match configure with
  | Raise e =>
      if exn_is_Exception e
      then (["Error configuring API key: " +:+ exn_str e], Raise SystemExit)
      else ([], Raise e)
  | Ok _ =>
      match failure with
      | Some e => (header :: listed models, Raise e)
      | None => (header :: listed models ++ [footer], Ok ())
      end
  end.

End list_py.

(** ** Fenced completions *)

Definition line_feed : string := String (ascii_of_nat 10) EmptyString.

(** No occurrence of [old] in [a +:+ b] starts inside [a]. *)
Fixpoint starts_none (old a b : string) : bool :=
  match a with
  | EmptyString => true
  | String _ a' => negb (is_prefix old (a +:+ b)) && starts_none old a' b
  end.

(** A completion that is a code block: the fence with its language tag, the
    body on lines of its own, the closing fence. *)
Definition code_block (language body : string) : string :=
  "```" +:+ language +:+ line_feed +:+ body +:+ line_feed +:+ "```".

(** ** A concrete implementation of the interface, for examples

    Small stand-ins for the libraries behind the handlers.  Each one answers
    a handful of inputs, listed with its definition, the way the library
    does; what it answers elsewhere is a convention of this module.  The
    theorems below do not depend on this module: they are proved for every
    implementation of the interface, and this one is used to run them on
    concrete requests. *)

Module Demo.

Inductive value := Num (z : Z) | Str (s : string).

#[global] Instance value_eq_dec : EqDecision value.
Proof. solve_decision. Defined.

Definition newline : string := String (ascii_of_nat 10) EmptyString.
Definition quote : string := String (ascii_of_nat 34) EmptyString.

(** The text of a file with a repeated row and an incomplete row. *)
Definition csv_text : string :=
  "a,b" +:+ newline +:+ "1,x" +:+ newline +:+ "2," +:+ newline
  +:+ "1,x" +:+ newline +:+ "3,y" +:+ newline.

(** [csv_text] as the upload delivers it. *)
Definition csv_bytes : list Byte.byte :=
  byte_of_ascii <$> list_ascii_of_string csv_text.

(** The table [pd.read_csv] builds from [csv_text]. *)
Definition csv_frame : DataFrame value :=
  {| columns := [("a", Int64); ("b", Object)];
     rows := [ [Some (Num 1); Some (Str "x")];
               [Some (Num 2); None];
               [Some (Num 1); Some (Str "x")];
               [Some (Num 3); Some (Str "y")] ] |}.

(** Decoding for files of ASCII text. *)
Definition decode_ascii (contents : list Byte.byte) : result string :=
  if forallb (λ b, (Byte.to_nat b <? 128)%nat) contents
  then Ok (string_of_list_ascii (ascii_of_byte <$> contents))
  else Raise (raised "UnicodeDecodeError" "'utf-8' codec can't decode byte")%string.

(** A reader that knows [csv_text]; the empty text has no columns to parse,
    and any other text is answered like it. *)
Definition read_sample (decoded : string) : result (DataFrame value) :=
  if decide (decoded = csv_text) then Ok csv_frame
  else Raise (raised "EmptyDataError" "No columns to parse from file").

(** [str] of a list of plain names: each between single quotes. *)
Definition names_text (names : list string) : string :=
  "[" +:+ String.concat ", " ((λ n, "'" +:+ n +:+ "'") <$> names) +:+ "]".

(** JSON text of a value made of lists, dicts and plain strings. *)
Fixpoint json_text (j : json) : string :=
  match j with
  | JNull => "null"
  | JBool true => "true"
  | JBool false => "false"
  | JInt z => pretty z
  | JFloat literal => literal
  | JString s => quote +:+ s +:+ quote
  | JList items => "[" +:+ String.concat ", " (json_text <$> items) +:+ "]"
  | JDict items =>
      "{" +:+ String.concat ", "
        ((λ kv : string * json, quote +:+ kv.1 +:+ quote +:+ ": " +:+ json_text kv.2) <$> items)
      +:+ "}"
  end.

Definition chart (title code : string) : json :=
  JDict [("title", JString title); ("code", JString code)].

(** A chart list whose second expression names a function Plotly Express
    does not have. *)
Definition three_charts : json :=
  JList [ chart "Values of a" "px.histogram(df, x='a')";
          chart "Broken" "px.nope(df)";
          chart "Values of b" "px.histogram(df, x='b')" ].

(** A chart list whose second expression empties the table it is given. *)
Definition emptying_charts : json :=
  JList [ chart "Values of a" "px.histogram(df, x='a')";
          chart "Cleared" "df.drop(df.index, inplace=True)" ].

(** A chart list whose expression empties the session cache. *)
Definition forgetting_charts : json :=
  JList [ chart "Forgotten" "df_cache.clear()" ].

(** A chart list whose second item has no title. *)
Definition untitled_charts : json :=
  JList [ chart "Values of a" "px.histogram(df, x='a')";
          JDict [("code", JString "px.histogram(df, x='b')")] ].

(** A chart list whose second expression leaves the interpreter. *)
Definition exiting_charts : json :=
  JList [ chart "Values of a" "px.histogram(df, x='a')";
          chart "Stop" "exit()";
          chart "Values of b" "px.histogram(df, x='b')" ].

(** A chart list whose first expression empties the list itself, then
    fails. *)
Definition clearing_charts : json :=
  JList [ chart "Gone" "charts_to_generate.clear() or 1/0";
          chart "Values of a" "px.histogram(df, x='a')";
          chart "Values of b" "px.histogram(df, x='b')" ].

(** A decoder that knows the JSON text of the values listed; any other text
    is answered like a text that does not start with a JSON value. *)
Definition decode_sample (s : string) : json + string :=
  match list_find (λ j, json_text j = s)
          [three_charts; emptying_charts; forgetting_charts; JInt 3; JDict [];
           untitled_charts; exiting_charts; clearing_charts] with
  | Some (_, j) => inl j
  | None => inr "Expecting value: line 1 column 1 (char 0)"
  end.

Definition builtins : namespace :=
  list_to_map [
    ("len", PyCallable "len"); ("print", PyCallable "print");
    ("open", PyCallable "open"); ("__import__", PyCallable "__import__");
    ("Exception", PyCallable "Exception"); ("SystemExit", PyCallable "SystemExit");
    ("exit", PyCallable "exit"); ("type", PyCallable "type")
  ].

(** An exception of a class made on the spot, whose [__str__] divides by
    zero: it has no text to read. *)
Definition unreadable : pyexn := raised "E" EmptyString.

Definition division_by_zero : pyexn := raised "ZeroDivisionError" "division by zero".

(** [exit()] *)
Definition system_exit : pyexn :=
  {| exn_is_Exception := false; exn_class := "SystemExit"; exn_str := "None" |}.

(** Reading the text of an exception fails for the class [E] alone. *)
Definition text_raises (e : pyexn) : option pyexn :=
  if decide (exn_class e = "E") then Some division_by_zero else None.

Section interpreter.

(** The scopes the code runs in; names resolve through the locals, the
    globals, then the built-ins. *)
Variables globals locals : namespace.

Definition resolve (name : string) : result pyobj :=
  let found :=
    match locals !! name with
    | Some v => Some v
    | None =>
        match globals !! name with
        | Some v => Some v
        | None =>
            match globals !! "__builtins__" with
            | None | Some PyBuiltins => builtins !! name
            | Some _ => None
            end
        end
    end in
  match found with
  | Some v => Ok v
  | None => Raise (raised "NameError" ("name '" +:+ name +:+ "' is not defined"))
  end.

Definition not_supported : pyexn :=
  raised "SyntaxError" "invalid syntax (<string>, line 1)".

Definition finished (st : store value) : exec_outcome value :=
  {| exec_result := Ok (); exec_printed := EmptyString; exec_store := st |}.

Definition failed (e : pyexn) (st : store value) : exec_outcome value :=
  {| exec_result := Raise e; exec_printed := EmptyString; exec_store := st |}.

Definition as_table (v : pyobj) : option loc :=
  match v with PyDataFrame l => Some l | _ => None end.

Definition is_module (name : string) (v : pyobj) : bool :=
  match v with PyModule n => bool_decide (n = name) | _ => false end.

Definition is_callable (name : string) (v : pyobj) : bool :=
  match v with PyCallable n => bool_decide (n = name) | _ => false end.

Definition is_capturing_print (v : pyobj) : bool :=
  match v with PyCapturingPrint => true | _ => false end.

Definition is_session_cache (v : pyobj) : bool :=
  match v with PySessionCache => true | _ => false end.

(** [df.drop(df.index, inplace=True)] on the table at [l]: every row goes,
    in place. *)
Definition drop_all_rows (l : loc) (st : store value) : store value :=
  {| heap := alter (λ df, {| columns := columns df; rows := [] |}) l (heap st);
     df_cache := df_cache st |}.

(** Blank lines before and after the code are no part of it. *)
Fixpoint drop_newlines (s : string) : string :=
  match s with
  | String c s' => if decide (c = ascii_of_nat 10) then drop_newlines s' else s
  | EmptyString => EmptyString
  end.

Definition trim_newlines (s : string) : string :=
  String.rev (drop_newlines (String.rev (drop_newlines s))).

(** [exec] for these lines:
    - [pass];
    - [print(len(df))], which writes the number of rows and a line feed
      through the print it finds (nothing is captured when that is the
      built-in print);
    - [df.drop(df.index, inplace=True)];
    - [raise Exception('boom')] and [raise SystemExit('bye')];
    - [raise type('E', (Exception,), {'__str__': lambda s: 1/0})()], which
      raises an exception of a new class whose text cannot be read.
    Any other line is refused as a syntax error, and a name bound to an
    object of another kind than the line expects as a type error. *)
Definition exec_line (source : string) (st : store value) : exec_outcome value :=
  let code := trim_newlines source in
  if decide (code = "pass") then finished st
  else if decide (code = "print(len(df))") then
    match resolve "print", resolve "len", resolve "df" with
    | Raise e, _, _ | Ok _, Raise e, _ | Ok _, Ok _, Raise e => failed e st
    | Ok print, Ok len, Ok df =>
        match as_table df with
        | Some l =>
            if negb (is_callable "len" len) then
              failed (raised "TypeError" "object is not callable") st
            else if is_capturing_print print then
              {| exec_result := Ok ();
                 exec_printed := pretty (length (rows (table_at st l))) +:+ newline;
                 exec_store := st |}
            else if is_callable "print" print then finished st
            else failed (raised "TypeError" "object is not callable") st
        | None => failed (raised "TypeError" "object has no len()") st
        end
    end
  else if decide (code = "df.drop(df.index, inplace=True)") then
    match resolve "df" with
    | Raise e => failed e st
    | Ok df =>
        match as_table df with
        | Some l => finished (drop_all_rows l st)
        | None => failed (raised "AttributeError" "object has no attribute 'drop'") st
        end
    end
  else if decide (code = "raise Exception('boom')") then
    match resolve "Exception" with
    | Raise e => failed e st
    | Ok _ => failed (raised "Exception" "boom") st
    end
  else if decide (code = "raise SystemExit('bye')") then
    match resolve "SystemExit" with
    | Raise e => failed e st
    | Ok _ =>
        failed {| exn_is_Exception := false; exn_class := "SystemExit"; exn_str := "bye" |} st
    end
  else if decide (code = "raise type('E', (Exception,), {'__str__': lambda s: 1/0})()") then
    match resolve "type", resolve "Exception" with
    | Raise e, _ | Ok _, Raise e => failed e st
    | Ok _, Ok _ => failed unreadable st
    end
  else failed not_supported st.

(** The column named in [px.histogram(df, x='...')], if [code] is such a
    call. *)
Definition histogram_column (code : string) : option string :=
  let opening := "px.histogram(df, x='" in
  let closing := "')" in
  let n := String.length code in
  let middle := String.substring (String.length opening)
                  (n - String.length opening - String.length closing) code in
  if decide (code = opening +:+ middle +:+ closing) then Some middle else None.

(** The item bound to [chart_info] and the value bound to
    [charts_to_generate] in the locals. *)
Definition bound_json (name : string) : json :=
  match locals !! name with
  | Some (PyJson j) => j
  | _ => JNull
  end.

(** The outcome of a run that changed neither of them. *)
Definition evaluated (r : result pyobj) (st : store value) : eval_outcome value :=
  {| eval_result := r; eval_store := st;
     eval_chart_info := bound_json "chart_info";
     eval_charts := bound_json "charts_to_generate" |}.

Definition raising (class text : string) (st : store value) : eval_outcome value :=
  evaluated (Raise (raised class text)) st.

(** [eval] for these expressions:
    - [px.histogram(df, x='c')], a figure when the table has a column [c],
      else the error Plotly Express raises;
    - [px.nope(df)], an attribute the module does not have;
    - [df.drop(df.index, inplace=True)], which empties the table in place
      and whose value is [None];
    - [df_cache.clear()], which empties the session cache and whose value
      is [None];
    - [1/0];
    - [exit()], which raises [SystemExit];
    - [charts_to_generate.clear() or 1/0], which empties the list in place
      and then divides by zero.
    Any other expression is refused as a syntax error, and a name bound to
    an object of another kind than the expression expects as an attribute
    error. *)
Definition eval_line (code : string) (st : store value) : eval_outcome value :=
  match histogram_column code with
  | Some column =>
      match resolve "px", resolve "df" with
      | Raise e, _ | Ok _, Raise e => evaluated (Raise e) st
      | Ok px, Ok df =>
          match is_module "plotly.express" px, as_table df with
          | true, Some l =>
              let names := column_names (table_at st l) in
              if decide (column ∈ names)
              then evaluated (Ok (PyFigure ("histogram of " +:+ column))) st
              else raising "ValueError"
                     ("Value of 'x' is not the name of a column in 'data_frame'. Expected one of "
                      +:+ names_text names +:+ " but received: " +:+ column) st
          | _, _ => raising "AttributeError" "object has no attribute 'histogram'" st
          end
      end
  | None =>
      if decide (code = "px.nope(df)") then
        match resolve "px" with
        | Raise e => evaluated (Raise e) st
        | Ok px =>
            if is_module "plotly.express" px
            then raising "AttributeError" "module 'plotly.express' has no attribute 'nope'" st
            else raising "AttributeError" "object has no attribute 'nope'" st
        end
      else if decide (code = "df.drop(df.index, inplace=True)") then
        match resolve "df" with
        | Raise e => evaluated (Raise e) st
        | Ok df =>
            match as_table df with
            | Some l => evaluated (Ok PyNone) (drop_all_rows l st)
            | None => raising "AttributeError" "object has no attribute 'drop'" st
            end
        end
      else if decide (code = "df_cache.clear()") then
        match resolve "df_cache" with
        | Raise e => evaluated (Raise e) st
        | Ok cache =>
            if is_session_cache cache
            then evaluated (Ok PyNone) {| heap := heap st; df_cache := ∅ |}
            else raising "AttributeError" "object has no attribute 'clear'" st
        end
      else if decide (code = "1/0") then evaluated (Raise division_by_zero) st
      else if decide (code = "exit()") then
        match resolve "exit" with
        | Raise e => evaluated (Raise e) st
        | Ok _ => evaluated (Raise system_exit) st
        end
      else if decide (code = "charts_to_generate.clear() or 1/0") then
        match resolve "charts_to_generate" with
        | Raise e => evaluated (Raise e) st
        | Ok (PyJson (JList _)) =>
            {| eval_result := Raise division_by_zero; eval_store := st;
               eval_chart_info := bound_json "chart_info";
               eval_charts := JList [] |}
        | Ok _ => raising "AttributeError" "object has no attribute 'clear'" st
        end
      else raising "SyntaxError" "invalid syntax (<string>, line 1)" st
  end.

End interpreter.

(** A figure renders to markup; [None] has no [to_html]. *)
Definition figure_html (fig : pyobj) : result string :=
  match fig with
  | PyFigure description => Ok ("<div>" +:+ description +:+ "</div>")
  | PyNone => Raise (raised "AttributeError" "'NoneType' object has no attribute 'to_html'")
  | _ => Raise (raised "AttributeError" "object has no attribute 'to_html'")
  end.

Definition json_str (j : json) : string :=
  match j with
  | JNull => "None"
  | JBool true => "True"
  | JBool false => "False"
  | _ => json_text j
  end.

(** The implementation, for a given completion service. *)
Definition collaborators (model : option (string → result GenerateContentResponse))
  : Collaborators value :=
  {| utf8_decode := decode_ascii;
     read_csv := read_sample;
     ai_model := model;
     json_decode := decode_sample;
     py_exec := λ code globals locals, exec_line globals locals code;
     py_eval := λ code globals locals, eval_line globals locals code;
     str_raises := text_raises;
     py_builtins := builtins;
     to_html := figure_html;
     str_names := names_text;
     str_json := json_str;
     import_ProfileReport := Ok (λ df, Ok ("<html>" +:+ pretty (length (rows df)) +:+ " rows</html>"));
     dashboard_markup := λ file_id, "<html>" +:+ file_id +:+ "</html>";
     chat_markup := "<html>chat</html>" |}.

(** A service that completes every prompt with [completion]. *)
Definition answering (completion : string) : Collaborators value :=
  collaborators (Some (λ _, Ok {| text := Ok completion |})).

(** The scopes of the chat handler, for the table at [l]. *)
Definition chat_scope (l : loc) (name : string) : option pyobj :=
  lookup_name (libs := answering "pass") (chat_globals l) chat_locals name.

(** A service whose response has no text to read. *)
Definition blocked : pyexn := raised "ValueError" "The response has no text.".

Definition answering_blocked : Collaborators value :=
  collaborators (Some (λ _, Ok {| text := Raise blocked |})).

(** No service: configuring it failed at start-up. *)
Definition unconfigured : Collaborators value := collaborators None.

(** A service whose call raises [e]. *)
Definition failing (e : pyexn) : Collaborators value :=
  collaborators (Some (λ _, Raise e)).

(** A store with one session, [s1], holding the cleaned [csv_frame]. *)
Definition one_session : store value :=
  {| heap := {[ 1%positive := drop_duplicates (dropna csv_frame) ]};
     df_cache := {[ "s1" := 1%positive ]} |}.

Definition empty_store : store value := {| heap := ∅; df_cache := ∅ |}.

Definition how_many : ChatQuestion := {| question := "How many rows are there?" |}.


(** The response object of a completion. *)
Definition completed (completion : string) : GenerateContentResponse :=
  {| text := Ok completion |}.

(** The frame of a visualization request for [s1] whose completion is the
    JSON text of [charts]. *)
Definition frame_of (charts : json) : visuals_frame :=
  request_frame (libs := answering (json_text charts)) "s1" one_session 1%positive
    (completed (json_text charts)) (json_text charts).

(** The scopes of the visualization handler when it evaluates the first
    expression of a request for [s1] with the one-chart list [charts]. *)
Definition visuals_scope (charts : json) (chart_info : json) (name : string)
  : option pyobj :=
  lookup_name (libs := answering (json_text charts))
    (module_globals (libs := answering (json_text charts)))
    (visuals_locals (frame_of charts) charts EmptyString chart_info None)
    name.

Definition unavailable : pyexn :=
  raised "ServiceUnavailable" "503 The service is currently unavailable.".

End Demo.

(** * Properties *)

(** ** Cleaning *)

Section cleaning_facts.
Context {scalar : Type} {eq_scalar : EqDecision scalar}.

Implicit Types (r : list (option scalar)) (seen rs : list (list (option scalar))).

Lemma first_occurrences_elem seen rs r :
  r ∈ first_occurrences seen rs ↔ r ∈ rs ∧ r ∉ seen.
Proof.
  revert seen. induction rs as [|x rest IH]; intros seen; simpl.
  - split; [intros H|intros [H _]]; by apply not_elem_of_nil in H.
  - destruct (decide (x ∈ seen)) as [Hin|Hnin].
    + rewrite IH, elem_of_cons. split; [tauto|].
      intros [[->|Hr] Hs]; [contradiction|tauto].
    + rewrite !elem_of_cons, IH, not_elem_of_cons. split.
      * intros [->|[Hr [_ Hs]]]; tauto.
      * intros [[->|Hr] Hs]; [tauto|].
        destruct (decide (r = x)) as [->|Hne]; tauto.
Qed.

Lemma first_occurrences_NoDup seen rs :
  NoDup (first_occurrences seen rs).
Proof.
  revert seen. induction rs as [|x rest IH]; intros seen; simpl.
  - constructor.
  - destruct (decide (x ∈ seen)); [apply IH|].
    constructor; [|apply IH].
    rewrite first_occurrences_elem, not_elem_of_cons. tauto.
Qed.

(** The rows kept are a subsequence of the rows given: order is preserved. *)
Lemma first_occurrences_sublist seen rs :
  sublist (first_occurrences seen rs) rs.
Proof.
  revert seen. induction rs as [|x rest IH]; intros seen; simpl.
  - constructor.
  - destruct (decide (x ∈ seen)).
    + apply sublist_cons, IH.
    + apply sublist_skip, IH.
Qed.

Lemma dropna_rows_complete (df : DataFrame scalar) :
  Forall (λ r, Forall is_Some r) (rows (dropna df)).
Proof.
  apply Forall_forall. intros r Hr. simpl in Hr.
  apply list_elem_of_filter in Hr as [Hc _].
  unfold complete in Hc. rewrite forallb_forall in Hc.
  apply Forall_forall. intros c Hc'.
  apply list_elem_of_In in Hc'. apply Hc in Hc'.
  by apply bool_decide_eq_true in Hc'.
Qed.

End cleaning_facts.

Section upload_facts.
Context {scalar : Type} {eq_scalar : EqDecision scalar} {libs : Collaborators scalar}.

Implicit Types (df : DataFrame scalar) (st : store scalar) (r : list (option scalar)).

Lemma complete_spec r : complete r = true ↔ Forall is_Some r.
Proof.
  unfold complete. rewrite forallb_forall, Forall_forall.
  split; intros H c Hc.
  - eapply bool_decide_eq_true_1, H. by apply list_elem_of_In.
  - apply bool_decide_eq_true_2, H. by apply list_elem_of_In.
Qed.

(** The rows of the cleaned table are the complete rows of the table. *)
Lemma clean_rows df r : r ∈ rows (clean df) ↔ r ∈ rows df ∧ Forall is_Some r.
Proof.
  unfold clean, drop_duplicates, dropna. simpl.
  rewrite first_occurrences_elem, list_elem_of_filter, complete_spec.
  split; [tauto|]. intros [? ?]. split; [tauto|]. apply not_elem_of_nil.
Qed.

Lemma clean_NoDup df : NoDup (rows (clean df)).
Proof. apply first_occurrences_NoDup. Qed.

(** Cleaning keeps the order of the rows and leaves the columns alone. *)
Lemma clean_sublist df : sublist (rows (clean df)) (rows df).
Proof.
  unfold clean, drop_duplicates, dropna. simpl.
  etrans; [apply first_occurrences_sublist|]. apply sublist_filter.
Qed.

Lemma clean_columns df : columns (clean df) = columns df.
Proof. reflexivity. Qed.

(** Cleaning a table that is already clean changes nothing. *)
Lemma first_occurrences_NoDup_id (seen rs : list (list (option scalar))) :
  NoDup rs → (∀ r, r ∈ rs → r ∉ seen) → first_occurrences seen rs = rs.
Proof.
  intros Hnd. revert seen. induction Hnd as [|x rest Hx Hnd IH]; intros seen Hseen; simpl.
  - reflexivity.
  - destruct (decide (x ∈ seen)) as [Hin|_].
    + exfalso. eapply Hseen; [left|done].
    + f_equal. apply IH. intros r Hr. rewrite not_elem_of_cons. split.
      * intros ->. contradiction.
      * apply Hseen. by right.
Qed.

(** C1.  When the uploaded bytes decode and parse as a table, the upload
    answers with the redirect to the new session's dashboard, and the table
    cached under the new identifier is the parsed table after [dropna] and
    then [drop_duplicates]: it has no duplicate rows and no row with a
    missing value, and its rows are the complete rows of the parsed table. *)
Theorem upload_caches_cleaned_table (contents : list Byte.byte) (uuid4 decoded : string)
    st df :
  utf8_decode contents = Ok decoded →
  read_csv decoded = Ok df →
  (upload_and_process contents uuid4 st).1
    = Ok (RedirectResponse ("/dashboard/" +:+ uuid4) 303) ∧
  cached_table (upload_and_process contents uuid4 st).2 uuid4
    = Some (drop_duplicates (dropna df)) ∧
  NoDup (rows (drop_duplicates (dropna df))) ∧
  Forall (λ r, Forall is_Some r) (rows (drop_duplicates (dropna df))) ∧
  (∀ r, r ∈ rows (drop_duplicates (dropna df)) ↔ r ∈ rows df ∧ Forall is_Some r).
Proof.
  intros Hdecode Hread. unfold upload_and_process.
  rewrite Hdecode. simpl. rewrite Hread. simpl.
  split; [reflexivity|]. split.
  - unfold cached_table. simpl. rewrite lookup_insert_eq. simpl.
    by rewrite lookup_insert_eq.
  - split; [apply clean_NoDup|]. split.
    + apply Forall_forall. intros r Hr. by apply clean_rows in Hr as [_ ?].
    + apply clean_rows.
Qed.

(** X5.  An upload that cannot be decoded or parsed raises and caches
    nothing. *)
Lemma upload_failure_keeps_store (contents : list Byte.byte) (uuid4 : string) st e :
  (upload_and_process contents uuid4 st).1 = Raise e →
  (upload_and_process contents uuid4 st).2 = st.
Proof.
  unfold upload_and_process. by case_match.
Qed.

(** X4.  The upload leaves the other sessions and their tables as they
    were. *)
Lemma upload_keeps_other_sessions (contents : list Byte.byte) (uuid4 file_id : string) st :
  store_wf st → file_id ≠ uuid4 →
  cached_table (upload_and_process contents uuid4 st).2 file_id = cached_table st file_id.
Proof.
  intros Hwf Hne. unfold upload_and_process.
  case_match; simpl; [|done].
  unfold cached_table. simpl. rewrite lookup_insert_ne by done.
  destruct (df_cache st !! file_id) as [l|] eqn:Hl; simpl; [|done].
  apply lookup_insert_ne. intros <-.
  apply Hwf in Hl. apply elem_of_dom in Hl. by apply is_fresh in Hl.
Qed.

(** The upload keeps the cache consistent: when every cache entry refers to
    a stored table before it, every cache entry does after it. *)
Lemma upload_keeps_wf (contents : list Byte.byte) (uuid4 : string) st :
  store_wf st → store_wf (upload_and_process contents uuid4 st).2.
Proof.
  intros Hwf. unfold upload_and_process.
  case_match; simpl; [|done].
  intros file_id l. simpl. rewrite lookup_insert. case_decide as Hid.
  - intros [= <-]. rewrite lookup_insert_eq. eauto.
  - intros Hl. apply Hwf in Hl as [df' Hdf]. rewrite lookup_insert. case_decide; eauto.
Qed.

End upload_facts.

(** ** Unknown sessions and chat *)

Section chat_facts.
Context {scalar : Type} {libs : Collaborators scalar}.

Implicit Types (st : store scalar) (item : ChatQuestion) (l : loc).

(** A chat request for a known session whose completion arrives executes
    the completion; the answer is read off the run. *)
Lemma ask_question_executes (file_id : string) item st l ai_response (completion : string) :
  df_cache st !! file_id = Some l →
  generate_content (chat_prompt (table_at st l) item) = Ok ai_response →
  text ai_response = Ok completion →
  ask_question file_id item st = chat_answer (chat_run st l completion).
Proof.
  intros Hl Hcall Htext. unfold ask_question, chat_run.
  rewrite Hl, Hcall. simpl. rewrite Htext. reflexivity.
Qed.

(** C2, as the code has it.  For a session identifier that is not in the
    cache, the dashboard, the AI visuals and the chat page answer with a
    redirect to the landing page, and so does the statistical report once
    its import of the profiling library has succeeded; the ask endpoint
    answers with the JSON body whose answer is "Session not found.".  None of
    them raises, and the store is unchanged. *)
Theorem unknown_session_responses (file_id : string) item st :
  df_cache st !! file_id = None →
  get_dashboard file_id st = Ok (RedirectResponse "/" 307) ∧
  (∀ turns, generate_ai_visuals turns file_id st = Some (Ok (RedirectResponse "/" 307), st)) ∧
  chat_page file_id st = Ok (RedirectResponse "/" 307) ∧
  (∀ ProfileReport, import_ProfileReport = Ok ProfileReport →
     generate_statistical_report file_id st = Ok (RedirectResponse "/" 307)) ∧
  ask_question file_id item st = (Ok (JSONResponse [("answer", "Session not found.")]), st).
Proof.
  intros Hnone.
  unfold get_dashboard, generate_ai_visuals, chat_page, generate_statistical_report,
    ask_question.
  rewrite Hnone. repeat split; try reflexivity.
  intros ProfileReport ->. reflexivity.
Qed.




(** X1.  An exception of the executed line that is not an [Exception] (a
    [SystemExit], say) is not caught: the request raises it. *)
Lemma ask_raises_other_exceptions (file_id : string) item st l ai_response
    (completion : string) (e : pyexn) :
  df_cache st !! file_id = Some l →
  generate_content (chat_prompt (table_at st l) item) = Ok ai_response →
  text ai_response = Ok completion →
  exec_result (chat_run st l completion) = Raise e →
  exn_is_Exception e = false →
  (ask_question file_id item st).1 = Raise e.
Proof.
  intros Hl Hcall Htext Hraise Hexn.
  rewrite (ask_question_executes _ _ _ _ _ _ Hl Hcall Htext). unfold chat_answer. simpl.
  rewrite Hraise. simpl. by rewrite Hexn.
Qed.

(** X6.  A failure of the completion call, or of reading its text, is
    answered the same way as a failure of the executed line, and the store
    is untouched. *)
Lemma ask_reports_completion_failure (file_id : string) item st l (e : pyexn) :
  df_cache st !! file_id = Some l →
  (ai_response ← generate_content (chat_prompt (table_at st l) item); text ai_response)
    = Raise e →
  exn_is_Exception e = true →
  ask_question file_id item st
    = (Ok (JSONResponse [("answer", "Error: " +:+ exn_str e)]), st).
Proof.
  intros Hl Hfail Hexn. unfold ask_question. rewrite Hl.
  destruct (generate_content _) as [ai_response|e']; simpl in *.
  - rewrite Hfail. simpl. by rewrite Hexn.
  - injection Hfail as ->. by rewrite Hexn.
Qed.


End chat_facts.

(** ** Visualization *)

Section visuals_facts.
Context {scalar : Type} {libs : Collaborators scalar}.

Implicit Types (st : store scalar) (l : loc) (frame : visuals_frame).

Lemma append_String (x : ascii) (a b : string) : String x a +:+ b = String x (a +:+ b).
Proof. reflexivity. Qed.

Lemma append_assoc (a b c : string) : (a +:+ b) +:+ c = a +:+ b +:+ c.
Proof.
  induction a as [|x a IH]; [done|]. rewrite !append_String. by rewrite IH.
Qed.

Lemma append_empty_r (a : string) : a +:+ EmptyString = a.
Proof. induction a as [|x a IH]; [done|]. rewrite append_String. by rewrite IH. Qed.

Lemma is_prefix_append (p s : string) : is_prefix p (p +:+ s) = true.
Proof.
  induction p as [|x p IH]; [done|]. rewrite append_String. simpl. by case_decide.
Qed.

(** A text put between two others is contained in the whole. *)
Lemma contains_append (sub before after : string) :
  contains sub (before +:+ sub +:+ after) = true.
Proof.
  induction before as [|x before IH].
  - change (EmptyString +:+ sub +:+ after) with (sub +:+ after).
    destruct (sub +:+ after) eqn:E; simpl; rewrite <- E, is_prefix_append; done.
  - rewrite append_String. simpl. rewrite IH. apply orb_true_r.
Qed.

(** A visualization request whose completion arrives but does not decode as
    JSON once its fences are stripped answers with the error page built from
    the completion, and the store is as it was. *)
Lemma visuals_parse_failure (turns : nat) (file_id : string) st l ai_response
    (completion message : string) :
  df_cache st !! file_id = Some l →
  generate_content (visuals_prompt (summary_of (table_at st l))) = Ok ai_response →
  text ai_response = Ok completion →
  json_decode (strip_json_fences completion) = inr message →
  generate_ai_visuals turns file_id st = Some (Ok (ai_error_page completion), st).
Proof.
  intros Hl Hcall Htext Hjson. unfold generate_ai_visuals.
  rewrite Hl, Hcall. simpl. rewrite Htext. simpl.
  unfold json_loads. rewrite Hjson. reflexivity.
Qed.

(** A visualization request whose completion decodes enters the loop over
    the decoded value, at its first item. *)
Lemma visuals_parse_success (turns : nat) (file_id : string) st l ai_response
    (completion : string) (charts : json) :
  df_cache st !! file_id = Some l →
  generate_content (visuals_prompt (summary_of (table_at st l))) = Ok ai_response →
  text ai_response = Ok completion →
  json_decode (strip_json_fences completion) = inl charts →
  generate_ai_visuals turns file_id st =
    match iterate charts with
    | Raise e => Some (Raise e, st)
    | Ok _ =>
        finish_page
          (render_charts turns (request_frame file_id st l ai_response completion)
             charts 0 None EmptyString st)
    end.
Proof.
  intros Hl Hcall Htext Hjson. unfold generate_ai_visuals.
  rewrite Hl, Hcall. simpl. rewrite Htext. simpl.
  unfold json_loads. rewrite Hjson. reflexivity.
Qed.

(** C4.  For a visualization request whose completion arrives: when the
    completion, once its fences are stripped, is not valid JSON, the answer
    is the error page alone, built from the completion, and the store is
    untouched; and the page with the charts is answered only when the
    completion has decoded as JSON. *)
Theorem invalid_json_gives_error_page_only (turns : nat) (file_id : string) st l ai_response
    (completion : string) :
  df_cache st !! file_id = Some l →
  generate_content (visuals_prompt (summary_of (table_at st l))) = Ok ai_response →
  text ai_response = Ok completion →
  (∀ message, json_decode (strip_json_fences completion) = inr message →
     generate_ai_visuals turns file_id st
       = Some (Ok (HTMLResponse ("<h1>Error processing AI response.</h1><pre>"
                                 +:+ completion +:+ "</pre>")), st)) ∧
  (∀ all_charts_html st',
     generate_ai_visuals turns file_id st = Some (Ok (visuals_page all_charts_html), st') →
     ∃ charts, json_decode (strip_json_fences completion) = inl charts).
Proof.
  intros Hl Hcall Htext. split.
  - intros message Hjson. by apply visuals_parse_failure with l ai_response message.
  - intros html st' Hpage.
    destruct (json_decode (strip_json_fences completion)) as [charts|message] eqn:Hjson;
      [by eexists|].
    rewrite (visuals_parse_failure _ _ _ _ _ _ _ Hl Hcall Htext Hjson) in Hpage.
    unfold ai_error_page, visuals_page in Hpage. cbv [String.append] in Hpage. discriminate.
Qed.

(** C7, as the code has it.  A parse error of a visualization request (its
    completion is not valid JSON once the fences are stripped) is not raised:
    the answer, with status 200, is an HTML error page that embeds the raw
    text of the completion. *)
Theorem parse_error_page_embeds_completion (turns : nat) (file_id : string) st l ai_response
    (completion message : string) :
  df_cache st !! file_id = Some l →
  generate_content (visuals_prompt (summary_of (table_at st l))) = Ok ai_response →
  text ai_response = Ok completion →
  json_decode (strip_json_fences completion) = inr message →
  ∃ content,
    fst <$> generate_ai_visuals turns file_id st = Some (Ok (HTMLResponse content)) ∧
    status (HTMLResponse content) = 200 ∧
    content = "<h1>Error processing AI response.</h1><pre>" +:+ completion +:+ "</pre>" ∧
    contains completion content = true.
Proof.
  intros Hl Hcall Htext Hjson.
  rewrite (visuals_parse_failure _ _ _ _ _ _ _ Hl Hcall Htext Hjson).
  eexists. split; [reflexivity|]. split; [reflexivity|]. split; [reflexivity|].
  apply contains_append.
Qed.

(** X2.  When the completion call itself raises an [Exception], the
    [except] clause reads [ai_response], which was never assigned: the
    request raises an [UnboundLocalError]. *)
Lemma visuals_completion_failure (turns : nat) (file_id : string) st l (e : pyexn) :
  df_cache st !! file_id = Some l →
  generate_content (visuals_prompt (summary_of (table_at st l))) = Raise e →
  exn_is_Exception e = true →
  generate_ai_visuals turns file_id st = Some (Raise (unbound_local "ai_response"), st).
Proof.
  intros Hl Hcall Hexn. unfold generate_ai_visuals.
  rewrite Hl, Hcall. simpl. by rewrite Hexn.
Qed.

End visuals_facts.

(** ** The loop over the charts *)

Section loop_facts.
Context {scalar : Type} {libs : Collaborators scalar}.

Implicit Types (st : store scalar) (l : loc) (frame : visuals_frame).

(** The loop ends where the list has no item. *)
Lemma render_charts_end (turns : nat) frame (charts : json) (index : nat)
    (fig : option pyobj) (html : string) st :
  items_of charts !! index = None →
  render_charts turns frame charts index fig html st = Some (Ok html, st).
Proof. intros Hnone. destruct turns; simpl; by rewrite Hnone. Qed.






(** *** The store *)




(** *** Scopes *)

(** C9, as the code has it.  For a known session, the chat handler runs the
    code of the completion by [exec] with a globals mapping that binds
    exactly [df], to the session's cached table, and [pd], to the tabular
    library, and with a locals mapping in which [print] is the capturing
    print.  The visualization handler runs its loop in the frame of the
    request, and every turn evaluates its expression by [eval] in the
    handler's own scopes, the globals of the module and the locals of the
    handler: [df] is the session's table there, and the charting library
    [px], the session cache [df_cache], the module [os] and the built-in
    functions of the interpreter are reachable. *)
Theorem execution_scopes (turns : nat) (file_id : string) (item : ChatQuestion) st l :
  df_cache st !! file_id = Some l →
  (∀ ai_response completion,
     generate_content (chat_prompt (table_at st l) item) = Ok ai_response →
     text ai_response = Ok completion →
     ∃ globals locals,
       ask_question file_id item st
         = chat_answer (py_exec (strip_python_fences completion) globals locals st) ∧
       dom globals = {[ "df"; "pd" ]} ∧
       globals !! "df" = Some (PyDataFrame l) ∧
       globals !! "pd" = Some (PyModule "pandas") ∧
       locals !! "print" = Some PyCapturingPrint) ∧
  (∀ ai_response completion charts items,
     generate_content (visuals_prompt (summary_of (table_at st l))) = Ok ai_response →
     text ai_response = Ok completion →
     json_decode (strip_json_fences completion) = inl charts →
     iterate charts = Ok items →
     generate_ai_visuals turns file_id st
       = finish_page
           (render_charts turns (request_frame file_id st l ai_response completion)
              charts 0 None EmptyString st) ∧
     ∀ (charts' chart_info : json) (code : string) (fig : option pyobj) (html : string) st',
       getitem chart_info "code" = Ok (JString code) →
       ∃ globals locals,
         render_chart (request_frame file_id st l ai_response completion)
           charts' chart_info fig html st'
           = (chart_turn (eval_chart_info (py_eval code globals locals st')) html
                (eval_result (py_eval code globals locals st')),
              match eval_result (py_eval code globals locals st') with
              | Ok v => Some v
              | Raise _ => fig
              end,
              eval_charts (py_eval code globals locals st'),
              eval_store (py_eval code globals locals st')) ∧
         lookup_name globals locals "df" = Some (PyDataFrame l) ∧
         lookup_name globals locals "chart_info" = Some (PyJson chart_info) ∧
         lookup_name globals locals "charts_to_generate" = Some (PyJson charts') ∧
         lookup_name globals locals "px" = Some (PyModule "plotly.express") ∧
         lookup_name globals locals "df_cache" = Some PySessionCache ∧
         lookup_name globals locals "os" = Some (PyModule "os") ∧
         builtins_of globals = py_builtins).
Proof.
  intros Hl. split.
  - intros ai_response completion Hcall Htext.
    exists (chat_globals l), chat_locals.
    split; [exact (ask_question_executes _ _ _ _ _ _ Hl Hcall Htext)|].
    repeat split; reflexivity.
  - intros ai_response completion charts items Hcall Htext Hjson Hiter. split.
    + by rewrite (visuals_parse_success _ _ _ _ _ _ _ Hl Hcall Htext Hjson), Hiter.
    + intros charts' chart_info code fig html st' Hcode.
      exists module_globals,
        (visuals_locals (request_frame file_id st l ai_response completion)
           charts' html chart_info fig).
      split; [unfold render_chart; by rewrite Hcode|].
      repeat split; try reflexivity;
        unfold lookup_name, visuals_locals;
        (destruct fig; [rewrite lookup_insert_ne by done|]); reflexivity.
Qed.


(** X3.  In the chat scopes, a name other than the four bound ones is
    looked up in the built-ins: the empty mapping under [__builtins__] sits
    in the locals, where it is an ordinary variable, and the globals have no
    [__builtins__] of their own. *)
Lemma chat_scopes_reach_builtins (l : loc) (name : string) :
  name ∉ ({[ "df"; "pd"; "print"; "__builtins__" ]} : gset string) →
  lookup_name (chat_globals l) chat_locals name = py_builtins !! name.
Proof.
  intros Hname. unfold lookup_name, builtins_of.
  assert (chat_locals !! name = None) as ->.
  { apply not_elem_of_dom. unfold chat_locals. rewrite dom_list_to_map_L. simpl. set_solver. }
  assert (chat_globals l !! name = None) as ->.
  { apply not_elem_of_dom. unfold chat_globals. rewrite dom_list_to_map_L. simpl. set_solver. }
  reflexivity.
Qed.

End loop_facts.

(** ** The properties on concrete requests *)




(** C1 on the sample file: its repeated row and its incomplete row are gone
    from the cached table. *)
Lemma upload_example :
  utf8_decode (Collaborators := Demo.answering "pass") Demo.csv_bytes = Ok Demo.csv_text ∧
  read_csv (Collaborators := Demo.answering "pass") Demo.csv_text = Ok Demo.csv_frame ∧
  rows (drop_duplicates (dropna Demo.csv_frame))
    = [ [Some (Demo.Num 1); Some (Demo.Str "x")]; [Some (Demo.Num 3); Some (Demo.Str "y")] ] ∧
  cached_table
    (upload_and_process (libs := Demo.answering "pass") Demo.csv_bytes "id-1" Demo.empty_store).2
    "id-1"
    = Some (drop_duplicates (dropna Demo.csv_frame)).
Proof.
  assert (utf8_decode (Collaborators := Demo.answering "pass") Demo.csv_bytes
          = Ok Demo.csv_text) as Hdecode by (vm_compute; reflexivity).
  assert (read_csv (Collaborators := Demo.answering "pass") Demo.csv_text
          = Ok Demo.csv_frame) as Hread by (vm_compute; reflexivity).
  split; [exact Hdecode|]. split; [exact Hread|]. split; [vm_compute; reflexivity|].
  exact (proj1 (proj2 (upload_caches_cleaned_table (libs := Demo.answering "pass")
                         Demo.csv_bytes "id-1" Demo.csv_text Demo.empty_store Demo.csv_frame
                         Hdecode Hread))).
Defined.

(** C2 on a request for a session that was never created. *)
Lemma unknown_session_example :
  df_cache Demo.one_session !! "unknown" = None ∧
  get_dashboard (libs := Demo.answering "pass") "unknown" Demo.one_session
    = Ok (RedirectResponse "/" 307) ∧
  ask_question (libs := Demo.answering "pass") "unknown" Demo.how_many Demo.one_session
    = (Ok (JSONResponse [("answer", "Session not found.")]), Demo.one_session).
Proof.
  assert (df_cache Demo.one_session !! "unknown" = None) as Hnone by (vm_compute; reflexivity).
  pose proof (unknown_session_responses (libs := Demo.answering "pass")
                "unknown" Demo.how_many Demo.one_session Hnone) as (Hdash & _ & _ & _ & Hask).
  split; [exact Hnone|]. split; [exact Hdash|exact Hask].
Defined.

(** C2 as stated fails: for an unknown session the ask endpoint answers with
    a JSON body and status 200, not with a redirect. *)
Lemma ask_unknown_session_is_not_a_redirect :
  df_cache Demo.one_session !! "unknown" = None ∧
  (ask_question (libs := Demo.answering "pass") "unknown" Demo.how_many Demo.one_session).1
    = Ok (JSONResponse [("answer", "Session not found.")]) ∧
  status (JSONResponse [("answer", "Session not found.")]) = 200 ∧
  ∀ url code,
    (ask_question (libs := Demo.answering "pass") "unknown" Demo.how_many Demo.one_session).1
      ≠ Ok (RedirectResponse url code).
Proof.
  split; [vm_compute; reflexivity|]. split; [vm_compute; reflexivity|].
  split; [reflexivity|]. intros url code. vm_compute. discriminate.
Qed.





(** C4 on a completion that is an apology, not JSON. *)
Lemma invalid_json_example :
  json_decode (Collaborators := Demo.answering "Sorry, no charts today.")
    (strip_json_fences "Sorry, no charts today.")
    = inr "Expecting value: line 1 column 1 (char 0)" ∧
  generate_ai_visuals (libs := Demo.answering "Sorry, no charts today.")
    3 "s1" Demo.one_session
    = Some (Ok (HTMLResponse
                  "<h1>Error processing AI response.</h1><pre>Sorry, no charts today.</pre>"),
            Demo.one_session).
Proof.
  assert (json_decode (Collaborators := Demo.answering "Sorry, no charts today.")
            (strip_json_fences "Sorry, no charts today.")
          = inr "Expecting value: line 1 column 1 (char 0)") as Hjson
    by (vm_compute; reflexivity).
  split; [exact Hjson|].
  refine (proj1 (invalid_json_gives_error_page_only
                   (libs := Demo.answering "Sorry, no charts today.")
                   3 "s1" Demo.one_session 1%positive
                   (Demo.completed "Sorry, no charts today.") "Sorry, no charts today."
                   _ eq_refl eq_refl) _ Hjson).
  vm_compute; reflexivity.
Defined.

(** C7, as the code has it, on the same completion. *)
Lemma parse_error_example :
  json_decode (Collaborators := Demo.answering "Sorry, no charts today.")
    (strip_json_fences "Sorry, no charts today.")
    = inr "Expecting value: line 1 column 1 (char 0)" ∧
  ∃ content,
    fst <$> generate_ai_visuals (libs := Demo.answering "Sorry, no charts today.")
              3 "s1" Demo.one_session = Some (Ok (HTMLResponse content)) ∧
    status (HTMLResponse content) = 200 ∧
    content = "<h1>Error processing AI response.</h1><pre>"
              +:+ "Sorry, no charts today." +:+ "</pre>" ∧
    contains "Sorry, no charts today." content = true.
Proof.
  assert (json_decode (Collaborators := Demo.answering "Sorry, no charts today.")
            (strip_json_fences "Sorry, no charts today.")
          = inr "Expecting value: line 1 column 1 (char 0)") as Hjson
    by (vm_compute; reflexivity).
  split; [exact Hjson|].
  refine (parse_error_page_embeds_completion
            (libs := Demo.answering "Sorry, no charts today.")
            3 "s1" Demo.one_session 1%positive
            (Demo.completed "Sorry, no charts today.") "Sorry, no charts today."
            "Expecting value: line 1 column 1 (char 0)" _ eq_refl eq_refl Hjson).
  vm_compute; reflexivity.
Defined.

(** C7 as stated fails twice.  When the completion call raises, the request
    raises an [UnboundLocalError]; and the page answered to a parse error
    does not embed the text of the exception. *)
Lemma visuals_errors_are_not_embedded :
  fst <$> generate_ai_visuals (libs := Demo.failing Demo.unavailable) 3 "s1" Demo.one_session
    = Some (Raise (raised "UnboundLocalError"
                     "cannot access local variable 'ai_response' where it is not associated with a value")) ∧
  json_loads (libs := Demo.answering "Sorry, no charts today.")
    (strip_json_fences "Sorry, no charts today.")
    = Raise (raised "JSONDecodeError" "Expecting value: line 1 column 1 (char 0)") ∧
  fst <$> generate_ai_visuals (libs := Demo.answering "Sorry, no charts today.")
            3 "s1" Demo.one_session
    = Some (Ok (HTMLResponse
                  "<h1>Error processing AI response.</h1><pre>Sorry, no charts today.</pre>")) ∧
  contains "Expecting value: line 1 column 1 (char 0)"
    "<h1>Error processing AI response.</h1><pre>Sorry, no charts today.</pre>" = false.
Proof. repeat split; vm_compute; reflexivity. Qed.






(** C9, as the code has it, on a chat request whose completion is [pass]. *)
Lemma execution_scopes_example :
  df_cache Demo.one_session !! "s1" = Some 1%positive ∧
  ∃ globals locals,
    ask_question (libs := Demo.answering "pass") "s1" Demo.how_many Demo.one_session
      = chat_answer (libs := Demo.answering "pass")
          (py_exec (Collaborators := Demo.answering "pass") "pass" globals locals
             Demo.one_session) ∧
    dom globals = {[ "df"; "pd" ]} ∧
    globals !! "df" = Some (PyDataFrame 1%positive) ∧
    globals !! "pd" = Some (PyModule "pandas") ∧
    locals !! "print" = Some PyCapturingPrint.
Proof.
  assert (df_cache Demo.one_session !! "s1" = Some 1%positive) as Hl
    by (vm_compute; reflexivity).
  split; [exact Hl|].
  exact (proj1 (execution_scopes (libs := Demo.answering "pass")
                  3 "s1" Demo.how_many Demo.one_session 1%positive Hl)
           (Demo.completed "pass") "pass" eq_refl eq_refl).
Defined.

(** C9 as stated fails.  An expression of the visualization handler reaches
    the session cache, the charting library and the other modules the module
    imports; a line of the chat handler reaches the built-in functions,
    [open] and [__import__] among them. *)
Lemma scopes_expose_more_than_the_table :
  (Demo.visuals_scope Demo.forgetting_charts (Demo.chart "Forgotten" "df_cache.clear()")
     "df_cache" = Some PySessionCache ∧
   Demo.visuals_scope Demo.forgetting_charts (Demo.chart "Forgotten" "df_cache.clear()")
     "os" = Some (PyModule "os") ∧
   Demo.visuals_scope Demo.forgetting_charts (Demo.chart "Forgotten" "df_cache.clear()")
     "px" = Some (PyModule "plotly.express")) ∧
  (py_builtins (Collaborators := Demo.answering "pass") !! "open" = Some (PyCallable "open") ∧
   Demo.chat_scope 1%positive "open" = Some (PyCallable "open") ∧
   Demo.chat_scope 1%positive "__import__" = Some (PyCallable "__import__") ∧
   Demo.chat_scope 1%positive "len" = Some (PyCallable "len")).
Proof. repeat split; vm_compute; reflexivity. Qed.

(** X1 on a line that raises [SystemExit]. *)
Lemma ask_system_exit_example :
  exec_result (chat_run (libs := Demo.answering "raise SystemExit('bye')")
                 Demo.one_session 1%positive "raise SystemExit('bye')")
    = Raise {| exn_is_Exception := false; exn_class := "SystemExit"; exn_str := "bye" |} ∧
  (ask_question (libs := Demo.answering "raise SystemExit('bye')")
     "s1" Demo.how_many Demo.one_session).1
    = Raise {| exn_is_Exception := false; exn_class := "SystemExit"; exn_str := "bye" |}.
Proof.
  assert (exec_result (chat_run (libs := Demo.answering "raise SystemExit('bye')")
                         Demo.one_session 1%positive "raise SystemExit('bye')")
          = Raise {| exn_is_Exception := false; exn_class := "SystemExit";
                     exn_str := "bye" |}) as Hraise by (vm_compute; reflexivity).
  split; [exact Hraise|].
  apply (ask_raises_other_exceptions (libs := Demo.answering "raise SystemExit('bye')")
           "s1" Demo.how_many Demo.one_session 1%positive
           (Demo.completed "raise SystemExit('bye')") "raise SystemExit('bye')").
  - vm_compute; reflexivity.
  - reflexivity.
  - reflexivity.
  - exact Hraise.
  - reflexivity.
Defined.

(** X2 on a completion service that is unavailable. *)
Lemma visuals_unavailable_example :
  generate_content (libs := Demo.failing Demo.unavailable)
    (visuals_prompt (summary_of (libs := Demo.failing Demo.unavailable)
                       (table_at Demo.one_session 1%positive)))
    = Raise Demo.unavailable ∧
  generate_ai_visuals (libs := Demo.failing Demo.unavailable) 3 "s1" Demo.one_session
    = Some (Raise (unbound_local "ai_response"), Demo.one_session).
Proof.
  split; [reflexivity|].
  apply (visuals_completion_failure (libs := Demo.failing Demo.unavailable)
           3 "s1" Demo.one_session 1%positive Demo.unavailable).
  - vm_compute; reflexivity.
  - reflexivity.
  - reflexivity.
Defined.

(** X3 on the name [open]. *)
Lemma chat_builtins_example :
  ("open" ∉ ({[ "df"; "pd"; "print"; "__builtins__" ]} : gset string)) ∧
  lookup_name (libs := Demo.answering "pass") (chat_globals 1%positive) chat_locals "open"
    = Some (PyCallable "open").
Proof.
  assert ("open" ∉ ({[ "df"; "pd"; "print"; "__builtins__" ]} : gset string)) as Hname
    by (vm_compute; discriminate).
  split; [exact Hname|].
  rewrite (chat_scopes_reach_builtins (libs := Demo.answering "pass") 1%positive "open" Hname).
  vm_compute; reflexivity.
Defined.

Lemma demo_one_session_wf : store_wf Demo.one_session.
Proof.
  intros file_id l Hl. simpl in Hl. apply lookup_singleton_Some in Hl as [_ <-].
  eexists. apply lookup_singleton_eq.
Qed.

(** X4 on a second upload: the first session keeps its table. *)
Lemma upload_other_session_example :
  store_wf Demo.one_session ∧ "s1" ≠ "id-2" ∧
  cached_table
    (upload_and_process (libs := Demo.answering "pass") Demo.csv_bytes "id-2"
       Demo.one_session).2 "s1"
    = cached_table Demo.one_session "s1".
Proof.
  assert ("s1" ≠ "id-2") as Hne by discriminate.
  split; [exact demo_one_session_wf|]. split; [exact Hne|].
  exact (upload_keeps_other_sessions (libs := Demo.answering "pass")
           Demo.csv_bytes "id-2" "s1" Demo.one_session demo_one_session_wf Hne).
Defined.

(** X5 on an upload that is not a table. *)
Lemma upload_failure_example :
  (upload_and_process (libs := Demo.answering "pass") [] "id-2" Demo.one_session).1
    = Raise (raised "EmptyDataError" "No columns to parse from file") ∧
  (upload_and_process (libs := Demo.answering "pass") [] "id-2" Demo.one_session).2
    = Demo.one_session.
Proof.
  assert ((upload_and_process (libs := Demo.answering "pass") [] "id-2"
             Demo.one_session).1
          = Raise (raised "EmptyDataError" "No columns to parse from file")) as Hraise
    by (vm_compute; reflexivity).
  split; [exact Hraise|].
  exact (upload_failure_keeps_store (libs := Demo.answering "pass")
           [] "id-2" Demo.one_session _ Hraise).
Defined.

(** X6 on a completion service that is unavailable. *)
Lemma ask_unavailable_example :
  df_cache Demo.one_session !! "s1" = Some 1%positive ∧
  ask_question (libs := Demo.failing Demo.unavailable) "s1" Demo.how_many Demo.one_session
    = (Ok (JSONResponse
             [("answer", "Error: 503 The service is currently unavailable.")]),
       Demo.one_session).
Proof.
  assert (df_cache Demo.one_session !! "s1" = Some 1%positive) as Hl
    by (vm_compute; reflexivity).
  split; [exact Hl|].
  exact (ask_reports_completion_failure (libs := Demo.failing Demo.unavailable)
           "s1" Demo.how_many Demo.one_session 1%positive Demo.unavailable
           Hl eq_refl eq_refl).
Defined.


(** ** Fence stripping *)

Lemma append_empty_l (b : string) : EmptyString +:+ b = b.
Proof. reflexivity. Qed.

Lemma is_prefix_cons (a b : ascii) (p s : string) :
  is_prefix (String a p) (String b s) = if decide (a = b) then is_prefix p s else false.
Proof. reflexivity. Qed.

Lemma contains_cons (sub : string) (c : ascii) (s : string) :
  contains sub (String c s) = is_prefix sub (String c s) || contains sub s.
Proof. reflexivity. Qed.

Lemma replace_from_cons (old new : string) (c : ascii) (s : string) :
  replace_from old new 0 (String c s)
  = if is_prefix old (String c s)
    then new +:+ replace_from old new (String.length old - 1) s
    else String c (replace_from old new 0 s).
Proof. reflexivity. Qed.

Lemma is_prefix_shorter (p q s : string) :
  is_prefix (p +:+ q) s = true → is_prefix p s = true.
Proof.
  revert s. induction p as [|a p IH]; intros s; [done|].
  rewrite append_String. destruct s as [|b s]; [done|].
  rewrite !is_prefix_cons. case_decide; [apply IH|done].
Qed.

(** A text without [p] is without every text that starts with [p]. *)
Lemma contains_longer (p q s : string) :
  contains p s = false → contains (p +:+ q) s = false.
Proof.
  induction s as [|c s IH].
  - simpl. rewrite !orb_false_r. intros Hp.
    destruct (is_prefix (p +:+ q) EmptyString) eqn:Hpq; [|done].
    apply is_prefix_shorter in Hpq. congruence.
  - rewrite !contains_cons. intros [Hp Hs]%orb_false_elim.
    rewrite (IH Hs), orb_false_r.
    destruct (is_prefix (p +:+ q) (String c s)) eqn:Hpq; [|done].
    apply is_prefix_shorter in Hpq. congruence.
Qed.

(** [replace] leaves a text without [old] as it is. *)
Lemma replace_from_none (old new s : string) :
  contains old s = false → replace_from old new 0 s = s.
Proof.
  induction s as [|c s IH]; [done|].
  rewrite contains_cons. intros [Hp Hs]%orb_false_elim.
  rewrite replace_from_cons, Hp, (IH Hs). reflexivity.
Qed.

Lemma replace_from_skip (old new o rest : string) :
  replace_from old new (String.length o) (o +:+ rest) = replace_from old new 0 rest.
Proof. induction o as [|x o IH]; [done|]. rewrite append_String. simpl. exact IH. Qed.

(** [replace] on a text that starts with [old]. *)
Lemma replace_from_match (old new rest : string) :
  old ≠ EmptyString →
  replace_from old new 0 (old +:+ rest) = new +:+ replace_from old new 0 rest.
Proof.
  destruct old as [|c o]; [done|]. intros _.
  rewrite append_String, replace_from_cons, <- append_String, is_prefix_append.
  replace (String.length (String c o) - 1) with (String.length o) by (simpl; lia).
  by rewrite replace_from_skip.
Qed.

Lemma replace_from_app (old new a b : string) :
  starts_none old a b = true →
  replace_from old new 0 (a +:+ b) = a +:+ replace_from old new 0 b.
Proof.
  induction a as [|c a IH]; [done|].
  intros H. simpl in H. apply andb_prop in H as [Hp Ha]. apply negb_true_iff in Hp.
  rewrite append_String in *. rewrite replace_from_cons, Hp, (IH Ha). reflexivity.
Qed.

Lemma contains_app_none (old a b : string) :
  starts_none old a b = true → contains old (a +:+ b) = contains old b.
Proof.
  induction a as [|c a IH]; [done|].
  intros H. simpl in H. apply andb_prop in H as [Hp Ha]. apply negb_true_iff in Hp.
  rewrite append_String in *. rewrite contains_cons, Hp, (IH Ha). reflexivity.
Qed.

(** Whether a text starts with a fence is decided before its first line
    feed. *)
Lemma fence_prefix_before_line_feed (x y : string) :
  is_prefix "```" (x +:+ line_feed +:+ y) = is_prefix "```" x.
Proof.
  destruct x as [|c1 [|c2 [|c3 x]]]; rewrite ?append_String, ?append_empty_l;
    unfold line_feed; rewrite ?append_String, ?append_empty_l, ?is_prefix_cons;
    repeat case_decide; try done.
Qed.

Lemma starts_none_cons (old : string) (c : ascii) (a b : string) :
  starts_none old (String c a) b
  = negb (is_prefix old (String c a +:+ b)) && starts_none old a b.
Proof. reflexivity. Qed.

Lemma starts_none_fence (body y : string) :
  contains "```" body = false →
  starts_none "```" (body +:+ line_feed) y = true.
Proof.
  induction body as [|c body IH].
  - intros _. reflexivity.
  - rewrite contains_cons. intros [Hp Hs]%orb_false_elim.
    rewrite append_String, starts_none_cons, (IH Hs), andb_true_r.
    rewrite <- append_String, append_assoc, fence_prefix_before_line_feed, Hp. done.
Qed.

Lemma lstrip_fence (s : string) : lstrip ("```" +:+ s) = "```" +:+ s.
Proof. reflexivity. Qed.

Lemma rstrip_fence (a : string) : rstrip (a +:+ "```") = a +:+ "```".
Proof.
  induction a as [|x a IH]; [reflexivity|].
  rewrite append_String. simpl. rewrite IH.
  destruct (a +:+ "```") eqn:E; [|done].
  destruct a; discriminate E.
Qed.

(** A fenced code block comes out of the strip as it went in. *)
Lemma strip_code_block (language body : string) :
  strip (code_block language body) = code_block language body.
Proof.
  unfold strip, code_block. rewrite lstrip_fence.
  rewrite <- !append_assoc. rewrite rstrip_fence. reflexivity.
Qed.

Lemma replace_nonempty (old new s : string) :
  old ≠ EmptyString → replace old new s = replace_from old new 0 s.
Proof. by destruct old. Qed.

Lemma starts_none_longer (p q a b : string) :
  starts_none p a b = true → starts_none (p +:+ q) a b = true.
Proof.
  induction a as [|c a IH]; [done|].
  rewrite !starts_none_cons. intros [Hp Ha]%andb_prop. apply negb_true_iff in Hp.
  rewrite (IH Ha), andb_true_r. apply negb_true_iff.
  destruct (is_prefix (p +:+ q) (String c a +:+ b)) eqn:Hpq; [|done].
  apply is_prefix_shorter in Hpq. congruence.
Qed.

Lemma starts_none_lines (body y : string) :
  contains "```" body = false →
  starts_none "```" (line_feed +:+ body +:+ line_feed) y = true.
Proof.
  intros Hbody. unfold line_feed at 1.
  rewrite append_String, append_empty_l, starts_none_cons, (starts_none_fence _ _ Hbody).
  reflexivity.
Qed.

(** The body of a code block, between its line feeds, once the opening
    fence with its tag is gone. *)
Lemma unwrap_code_block (tag body : string) :
  tag ≠ EmptyString →
  contains "```" body = false →
  replace "```" EmptyString
    (replace ("```" +:+ tag) EmptyString (code_block tag body))
  = line_feed +:+ body +:+ line_feed.
Proof.
  intros Htag Hbody. pose proof (starts_none_lines body "```" Hbody) as Hlines.
  assert (replace ("```" +:+ tag) EmptyString (code_block tag body)
          = (line_feed +:+ body +:+ line_feed) +:+ "```") as ->.
  { rewrite replace_nonempty by done. unfold code_block.
    rewrite <- (append_assoc "```" tag), replace_from_match, append_empty_l by done.
    replace (line_feed +:+ body +:+ line_feed +:+ "```")
      with ((line_feed +:+ body +:+ line_feed) +:+ "```") by (by rewrite !append_assoc).
    apply replace_from_none.
    rewrite contains_app_none by (by apply starts_none_longer).
    by destruct tag. }
  rewrite replace_nonempty, replace_from_app by done.
  change (replace_from "```" EmptyString 0 "```") with EmptyString.
  apply append_empty_r.
Qed.

(** X7.  A completion that is a fenced code block, tagged [python] for chat
    or [json] for the visualizations, is unwrapped to its body between two
    line feeds, provided the body holds no fence of its own. *)
Theorem fenced_completion_is_unwrapped (body : string) :
  contains "```" body = false →
  strip_python_fences (code_block "python" body) = line_feed +:+ body +:+ line_feed ∧
  strip_json_fences (code_block "json" body) = line_feed +:+ body +:+ line_feed.
Proof.
  intros Hbody. unfold strip_python_fences, strip_json_fences.
  rewrite !strip_code_block. split.
  - by apply (unwrap_code_block "python" body).
  - by apply (unwrap_code_block "json" body).
Qed.

(** X8.  A completion that holds no fence passes through fence stripping
    with only the white space around it removed. *)
Theorem plain_completion_is_only_stripped (completion : string) :
  contains "```" (strip completion) = false →
  strip_python_fences completion = strip completion ∧
  strip_json_fences completion = strip completion.
Proof.
  intros Hplain. unfold strip_python_fences, strip_json_fences.
  rewrite !replace_nonempty by done.
  rewrite (replace_from_none "```python"), (replace_from_none "```json"),
    (replace_from_none "```"); try done.
  - exact (contains_longer "```" "json" _ Hplain).
  - exact (contains_longer "```" "python" _ Hplain).
Qed.

Lemma fence_removal_one_tick (s : string) :
  is_prefix "`" s = false → is_prefix "`" (replace_from "```" EmptyString 0 s) = false.
Proof.
  destruct s as [|c s]; [done|].
  rewrite is_prefix_cons. case_decide as Hc; [done|]. intros _.
  rewrite replace_from_cons, is_prefix_cons, decide_False by done.
  by rewrite is_prefix_cons, decide_False.
Qed.

Lemma fence_removal_two_ticks (s : string) :
  is_prefix "``" s = false → is_prefix "``" (replace_from "```" EmptyString 0 s) = false.
Proof.
  destruct s as [|c s]; [done|].
  rewrite is_prefix_cons. case_decide as Hc.
  - intros Hone.
    assert (is_prefix "``" s = false) as Htwo.
    { destruct (is_prefix "``" s) eqn:E; [|done].
      apply (is_prefix_shorter "`" "`") in E. congruence. }
    rewrite replace_from_cons, is_prefix_cons, decide_True, Htwo by done.
    rewrite is_prefix_cons, decide_True by done.
    by apply fence_removal_one_tick.
  - intros _.
    rewrite replace_from_cons, is_prefix_cons, decide_False by done.
    by rewrite is_prefix_cons, decide_False.
Qed.

(** Removing the fences leaves no fence, wherever the scan stands. *)
Lemma fence_removal_leaves_none (skip : nat) (s : string) :
  contains "```" (replace_from "```" EmptyString skip s) = false.
Proof.
  revert skip. induction s as [|c s IH]; intros skip; [by destruct skip|].
  destruct skip as [|skip]; [|apply IH].
  rewrite replace_from_cons.
  destruct (is_prefix "```" (String c s)) eqn:Hp.
  - rewrite append_empty_l. apply IH.
  - rewrite contains_cons, IH, orb_false_r.
    rewrite is_prefix_cons in *. case_decide; [|done].
    by apply fence_removal_two_ticks.
Qed.

(** X9.  Whatever the completion, the text handed on by fence stripping (to
    [exec] for chat, to [json.loads] for the visualizations) holds no
    fence. *)
Theorem no_fence_survives_stripping (completion : string) :
  contains "```" (strip_python_fences completion) = false ∧
  contains "```" (strip_json_fences completion) = false.
Proof.
  unfold strip_python_fences, strip_json_fences.
  rewrite !(replace_nonempty "```") by done.
  split; apply fence_removal_leaves_none.
Qed.

(** ** Outcomes of the chat and visualization handlers *)

Section outcome_facts.
Context {scalar : Type} {libs : Collaborators scalar}.

Implicit Types (st : store scalar) (l : loc) (frame : visuals_frame).


(** X11.  When configuring the service failed at start-up with an
    [Exception], the failure was printed, [ai_model] is [None], and for a
    known session a chat request is answered with the attribute error of
    [None] while a visualization request raises [UnboundLocalError]. *)
Theorem failed_configuration_disables_ai (configure : result unit)
    (GenerativeModel : result (string → result GenerateContentResponse))
    (e : pyexn) (printed : list string) (turns : nat) (file_id : string)
    (item : ChatQuestion) st l :
  (_ ← configure; GenerativeModel) = Raise e →
  exn_is_Exception e = true →
  configure_ai configure GenerativeModel = Ok (printed, ai_model) →
  df_cache st !! file_id = Some l →
  printed = ["Error configuring Google AI: " +:+ exn_str e] ∧
  ask_question file_id item st
    = (Ok (JSONResponse
             [("answer", "Error: 'NoneType' object has no attribute 'generate_content'")]), st) ∧
  generate_ai_visuals turns file_id st = Some (Raise (unbound_local "ai_response"), st).
Proof.
  intros Hfail Hexn Hstart Hl.
  assert (printed = ["Error configuring Google AI: " +:+ exn_str e] ∧ ai_model = None)
    as [Hprinted Hnone].
  { unfold configure_ai in Hstart.
    destruct configure as [[]|e1]; simpl in *;
      [destruct GenerativeModel as [m|e2]; simpl in *|]; simplify_eq;
      rewrite Hexn in Hstart; by simplify_eq. }
  split; [exact Hprinted|].
  unfold ask_question, generate_ai_visuals, generate_content.
  rewrite Hl, Hnone. done.
Qed.

(** X12.  When reading the text of the completion raises, the visualization
    request raises the same exception: the [except] clause reads the text
    again. *)
Theorem unreadable_completion_is_raised (turns : nat) (file_id : string) st l ai_response
    (e : pyexn) :
  df_cache st !! file_id = Some l →
  generate_content (visuals_prompt (summary_of (table_at st l))) = Ok ai_response →
  text ai_response = Raise e →
  generate_ai_visuals turns file_id st = Some (Raise e, st).
Proof.
  intros Hl Hcall Htext. unfold generate_ai_visuals.
  rewrite Hl, Hcall. simpl. rewrite Htext. simpl. by destruct (exn_is_Exception e).
Qed.

(** X13.  When the completion decodes as JSON that is no list, object or
    string ([null], a boolean, a number), the visualization request raises
    the [TypeError] of iterating over it. *)
Theorem scalar_completion_is_raised (turns : nat) (file_id : string) st l ai_response
    (completion : string) (charts : json) :
  df_cache st !! file_id = Some l →
  generate_content (visuals_prompt (summary_of (table_at st l))) = Ok ai_response →
  text ai_response = Ok completion →
  json_decode (strip_json_fences completion) = inl charts →
  match charts with JList _ | JDict _ | JString _ => False | _ => True end →
  generate_ai_visuals turns file_id st
    = Some (Raise (raised "TypeError"
                     ("'" +:+ type_name charts +:+ "' object is not iterable")), st).
Proof.
  intros Hl Hcall Htext Hjson Hscalar.
  rewrite (visuals_parse_success _ _ _ _ _ _ _ Hl Hcall Htext Hjson).
  by destruct charts.
Qed.




(** X20.  When the completion decodes as JSON with nothing to iterate over
    (an empty list, but also an empty object or an empty string), the
    visualization request answers the page with its heading and no block,
    and the store is untouched. *)
Theorem empty_completion_gives_empty_page (turns : nat) (file_id : string) st l ai_response
    (completion : string) (charts : json) :
  df_cache st !! file_id = Some l →
  generate_content (visuals_prompt (summary_of (table_at st l))) = Ok ai_response →
  text ai_response = Ok completion →
  json_decode (strip_json_fences completion) = inl charts →
  charts = JList [] ∨ charts = JDict [] ∨ charts = JString EmptyString →
  generate_ai_visuals turns file_id st
    = Some (Ok (HTMLResponse "<html><body><h1>AI Visualizations</h1></body></html>"), st).
Proof.
  intros Hl Hcall Htext Hjson Hempty.
  rewrite (visuals_parse_success _ _ _ _ _ _ _ Hl Hcall Htext Hjson).
  destruct Hempty as [->|[->| ->]]; simpl; by rewrite render_charts_end.
Qed.

End outcome_facts.

(** ** Cleaning, again *)

Section cleaning_algebra.
Context {scalar : Type} {eq_scalar : EqDecision scalar} {libs : Collaborators scalar}.

Implicit Types (df : DataFrame scalar) (st : store scalar)
  (seen rs : list (list (option scalar))).

Lemma filter_complete_id rs :
  Forall (λ r, Forall is_Some r) rs → filter (λ r, complete r = true) rs = rs.
Proof.
  induction 1 as [|r rs Hr _ IH]; [done|].
  rewrite filter_cons_True by (by apply complete_spec). by rewrite IH.
Qed.

(** Dropping incomplete rows and keeping first occurrences can be done in
    either order. *)
Lemma first_occurrences_filter seen seen' rs :
  (∀ r, complete r = true → r ∈ seen ↔ r ∈ seen') →
  first_occurrences seen (filter (λ r, complete r = true) rs)
  = filter (λ r, complete r = true) (first_occurrences seen' rs).
Proof.
  revert seen seen'. induction rs as [|x rs IH]; intros seen seen' Hseen; [done|].
  destruct (decide (complete x = true)) as [Hx|Hx].
  - rewrite filter_cons_True by done. simpl.
    destruct (decide (x ∈ seen)) as [Hin|Hin], (decide (x ∈ seen')) as [Hin'|Hin'];
      try (exfalso; apply (Hseen x Hx) in Hin || apply (Hseen x Hx) in Hin'; contradiction).
    + by apply IH.
    + rewrite filter_cons_True by done. f_equal. apply IH.
      intros r Hr. rewrite !elem_of_cons, (Hseen r Hr). done.
  - rewrite filter_cons_False by done. simpl.
    destruct (decide (x ∈ seen')) as [Hin'|Hin'].
    + by apply IH.
    + rewrite filter_cons_False by done. apply IH.
      intros r Hr. rewrite elem_of_cons, (Hseen r Hr).
      split; [tauto|]. intros [->|?]; [contradiction|done].
Qed.

(** X15.  The two cleaning steps of the upload commute: dropping the
    incomplete rows and then the duplicates gives the table that dropping
    the duplicates and then the incomplete rows gives. *)
Theorem cleaning_steps_commute df :
  drop_duplicates (dropna df) = dropna (drop_duplicates df).
Proof.
  unfold drop_duplicates, dropna. simpl. f_equal.
  by apply first_occurrences_filter.
Qed.

(** X16.  Cleaning is idempotent: the table an upload caches is left as it
    is by the cleaning of [upload_and_process]. *)
Theorem cleaning_is_idempotent df :
  drop_duplicates (dropna (drop_duplicates (dropna df))) = drop_duplicates (dropna df).
Proof.
  assert (∀ t : DataFrame scalar,
            NoDup (rows t) → Forall (λ r, Forall is_Some r) (rows t) →
            drop_duplicates (dropna t) = t) as Hclean.
  { intros [cols rs] Hnodup Hcomplete. unfold drop_duplicates, dropna. simpl in *.
    f_equal. rewrite filter_complete_id by done.
    apply first_occurrences_NoDup_id; [done|]. intros r _. apply not_elem_of_nil. }
  apply Hclean; [apply clean_NoDup|].
  apply Forall_forall. intros r Hr. by apply clean_rows in Hr as [_ ?].
Qed.

(** X17.  After an upload that decoded and parsed, the new session is
    found: the dashboard the upload redirects to and the chat page are
    served for the new identifier, and the table read for it is the cleaned
    table. *)
Theorem upload_opens_session (contents : list Byte.byte) (uuid4 decoded : string) st df :
  utf8_decode contents = Ok decoded →
  read_csv decoded = Ok df →
  (upload_and_process contents uuid4 st).1
    = Ok (RedirectResponse ("/dashboard/" +:+ uuid4) 303) ∧
  get_dashboard uuid4 (upload_and_process contents uuid4 st).2
    = Ok (HTMLResponse (dashboard_markup uuid4)) ∧
  chat_page uuid4 (upload_and_process contents uuid4 st).2 = Ok (HTMLResponse chat_markup) ∧
  ∃ l, df_cache (upload_and_process contents uuid4 st).2 !! uuid4 = Some l ∧
       table_at (upload_and_process contents uuid4 st).2 l = drop_duplicates (dropna df).
Proof.
  intros Hdecode Hread. unfold upload_and_process.
  rewrite Hdecode. simpl. rewrite Hread. simpl.
  unfold get_dashboard, chat_page, table_at. simpl.
  rewrite !lookup_insert_eq. repeat split.
  eexists. split; [reflexivity|]. by rewrite lookup_insert_eq.
Qed.

(** X18.  The table an upload caches is a new object, shared with no other
    session: its reference is unused before the upload and differs from the
    reference of every other cache entry after it. *)
Theorem uploaded_table_is_unshared (contents : list Byte.byte) (uuid4 decoded : string)
    st df :
  store_wf st →
  utf8_decode contents = Ok decoded →
  read_csv decoded = Ok df →
  ∃ l, df_cache (upload_and_process contents uuid4 st).2 !! uuid4 = Some l ∧
       heap st !! l = None ∧
       ∀ file_id l', file_id ≠ uuid4 →
         df_cache (upload_and_process contents uuid4 st).2 !! file_id = Some l' → l' ≠ l.
Proof.
  intros Hwf Hdecode Hread. unfold upload_and_process.
  rewrite Hdecode. simpl. rewrite Hread. simpl.
  exists (fresh (dom (heap st))).
  assert (heap st !! fresh (dom (heap st)) = None) as Hfresh
    by apply not_elem_of_dom, is_fresh.
  split; [by rewrite lookup_insert_eq|]. split; [done|].
  intros file_id l' Hne. rewrite lookup_insert_ne by done.
  intros Hl' ->. apply Hwf in Hl' as [? ?]. congruence.
Qed.

End cleaning_algebra.

(** ** The script list.py *)

(** X19.  The script list.py prints, after its header, the names of the
    models that support [generateContent], in the order the service lists
    them, and no other name; it prints its footer exactly when the listing
    did not fail; and when configuring the service raises an [Exception] it
    prints that error alone and exits. *)
Theorem list_py_prints_only_supporting_models (configure : result unit)
    (models : list list_py.Model) (failure : option pyexn) :
  (∀ n, n ∈ list_py.listed models ↔
        ∃ m, m ∈ models ∧ list_py.name m = n ∧
             "generateContent" ∈ list_py.supported_generation_methods m) ∧
  sublist (list_py.listed models) (list_py.name <$> models) ∧
  match configure, failure with
  | Ok _, None =>
      list_py.run configure models failure
        = (list_py.header :: list_py.listed models ++ [list_py.footer], Ok ())
  | Ok _, Some e =>
      list_py.run configure models failure
        = (list_py.header :: list_py.listed models, Raise e)
  | Raise e, _ =>
      list_py.run configure models failure
        = if exn_is_Exception e
          then (["Error configuring API key: " +:+ exn_str e], Raise list_py.SystemExit)
          else ([], Raise e)
  end.
Proof.
  split; [|split].
  - intros n. unfold list_py.listed. rewrite list_elem_of_fmap. split.
    + intros (m & -> & Hm). apply list_elem_of_filter in Hm as [? ?]. eauto.
    + intros (m & Hm & <- & Hn). exists m. split; [done|]. by apply list_elem_of_filter.
  - unfold list_py.listed. apply fmap_sublist, sublist_filter.
  - by destruct configure as [[]|e], failure.
Qed.

(** ** The further properties on concrete requests *)

(** X7 on a line of code in a fence. *)
Lemma fenced_completion_example :
  contains "```" "print(len(df))" = false ∧
  strip_python_fences (code_block "python" "print(len(df))")
    = line_feed +:+ "print(len(df))" +:+ line_feed.
Proof.
  assert (contains "```" "print(len(df))" = false) as Hbody by reflexivity.
  split; [exact Hbody|].
  exact (proj1 (fenced_completion_is_unwrapped "print(len(df))" Hbody)).
Defined.

(** X8 on a line of code between blanks. *)
Lemma plain_completion_example :
  contains "```" (strip "  print(len(df))  ") = false ∧
  strip_python_fences "  print(len(df))  " = "print(len(df))".
Proof.
  assert (contains "```" (strip "  print(len(df))  ") = false) as Hplain by reflexivity.
  split; [exact Hplain|].
  exact (proj1 (plain_completion_is_only_stripped "  print(len(df))  " Hplain)).
Defined.

(** X11 on a start-up without a valid key. *)
Lemma failed_configuration_example :
  configure_ai (Raise (raised "ValueError" "Invalid API key")) (Ok (λ _, Raise Demo.unavailable))
    = Ok (["Error configuring Google AI: Invalid API key"],
          ai_model (Collaborators := Demo.unconfigured)) ∧
  ask_question (libs := Demo.unconfigured) "s1" Demo.how_many Demo.one_session
    = (Ok (JSONResponse
             [("answer", "Error: 'NoneType' object has no attribute 'generate_content'")]),
       Demo.one_session) ∧
  generate_ai_visuals (libs := Demo.unconfigured) 3 "s1" Demo.one_session
    = Some (Raise (unbound_local "ai_response"), Demo.one_session).
Proof.
  assert (configure_ai (Raise (raised "ValueError" "Invalid API key"))
            (Ok (λ _, Raise Demo.unavailable))
          = Ok (["Error configuring Google AI: Invalid API key"],
                ai_model (Collaborators := Demo.unconfigured))) as Hstart by reflexivity.
  split; [exact Hstart|].
  refine (proj2 (failed_configuration_disables_ai (libs := Demo.unconfigured)
                   (Raise (raised "ValueError" "Invalid API key"))
                   (Ok (λ _, Raise Demo.unavailable))
                   (raised "ValueError" "Invalid API key")
                   ["Error configuring Google AI: Invalid API key"]
                   3 "s1" Demo.how_many Demo.one_session 1%positive
                   eq_refl eq_refl Hstart _)).
  vm_compute; reflexivity.
Defined.

(** X12 on a response whose text cannot be read. *)
Lemma unreadable_completion_example :
  df_cache Demo.one_session !! "s1" = Some 1%positive ∧
  generate_ai_visuals (libs := Demo.answering_blocked) 3 "s1" Demo.one_session
    = Some (Raise Demo.blocked, Demo.one_session).
Proof.
  assert (df_cache Demo.one_session !! "s1" = Some 1%positive) as Hl
    by (vm_compute; reflexivity).
  split; [exact Hl|].
  exact (unreadable_completion_is_raised (libs := Demo.answering_blocked)
           3 "s1" Demo.one_session 1%positive {| text := Raise Demo.blocked |} Demo.blocked
           Hl eq_refl eq_refl).
Defined.

(** X13 on the completion [3]. *)
Lemma scalar_completion_example :
  json_decode (Collaborators := Demo.answering "3") (strip_json_fences "3") = inl (JInt 3) ∧
  generate_ai_visuals (libs := Demo.answering "3") 3 "s1" Demo.one_session
    = Some (Raise (raised "TypeError" "'int' object is not iterable"), Demo.one_session).
Proof.
  assert (json_decode (Collaborators := Demo.answering "3") (strip_json_fences "3")
          = inl (JInt 3)) as Hjson by (vm_compute; reflexivity).
  split; [exact Hjson|].
  refine (scalar_completion_is_raised (libs := Demo.answering "3")
            3 "s1" Demo.one_session 1%positive (Demo.completed "3") "3" (JInt 3)
            _ eq_refl eq_refl Hjson I).
  vm_compute; reflexivity.
Defined.



(** X17 on the sample file. *)
Lemma upload_opens_session_example :
  utf8_decode (Collaborators := Demo.answering "pass") Demo.csv_bytes = Ok Demo.csv_text ∧
  read_csv (Collaborators := Demo.answering "pass") Demo.csv_text = Ok Demo.csv_frame ∧
  get_dashboard (libs := Demo.answering "pass") "id-1"
    (upload_and_process (libs := Demo.answering "pass")
       Demo.csv_bytes "id-1" Demo.empty_store).2
    = Ok (HTMLResponse "<html>id-1</html>").
Proof.
  assert (utf8_decode (Collaborators := Demo.answering "pass") Demo.csv_bytes
          = Ok Demo.csv_text) as Hdecode by (vm_compute; reflexivity).
  assert (read_csv (Collaborators := Demo.answering "pass") Demo.csv_text
          = Ok Demo.csv_frame) as Hread by (vm_compute; reflexivity).
  split; [exact Hdecode|]. split; [exact Hread|].
  exact (proj1 (proj2 (upload_opens_session (libs := Demo.answering "pass")
                         Demo.csv_bytes "id-1" Demo.csv_text Demo.empty_store Demo.csv_frame
                         Hdecode Hread))).
Defined.

(** X18 on a second upload: its table is at a reference of its own. *)
Lemma uploaded_table_example :
  store_wf Demo.one_session ∧
  ∃ l, df_cache
         (upload_and_process (libs := Demo.answering "pass")
            Demo.csv_bytes "id-2" Demo.one_session).2 !! "id-2" = Some l ∧
       heap Demo.one_session !! l = None ∧
       ∀ file_id l', file_id ≠ "id-2" →
         df_cache
           (upload_and_process (libs := Demo.answering "pass")
              Demo.csv_bytes "id-2" Demo.one_session).2 !! file_id = Some l' → l' ≠ l.
Proof.
  split; [exact demo_one_session_wf|].
  refine (uploaded_table_is_unshared (libs := Demo.answering "pass")
            Demo.csv_bytes "id-2" Demo.csv_text Demo.one_session Demo.csv_frame
            demo_one_session_wf _ _); vm_compute; reflexivity.
Defined.

(** X20 on the completion of an empty object. *)
Lemma empty_completion_example :
  json_decode (Collaborators := Demo.answering "{}") (strip_json_fences "{}")
    = inl (JDict []) ∧
  generate_ai_visuals (libs := Demo.answering "{}") 3 "s1" Demo.one_session
    = Some (Ok (HTMLResponse "<html><body><h1>AI Visualizations</h1></body></html>"),
            Demo.one_session).
Proof.
  assert (json_decode (Collaborators := Demo.answering "{}") (strip_json_fences "{}")
          = inl (JDict [])) as Hjson by (vm_compute; reflexivity).
  split; [exact Hjson|].
  refine (empty_completion_gives_empty_page (libs := Demo.answering "{}")
            3 "s1" Demo.one_session 1%positive (Demo.completed "{}") "{}" (JDict [])
            _ eq_refl eq_refl Hjson (or_intror (or_introl eq_refl))).
  vm_compute; reflexivity.
Defined.
